(** * auth-taller: the authentication service and its in-memory user store

    A shallow embedding of [src/users/users.service.ts] (UsersService),
    [src/users/users.controller.ts] (UsersController), the [User] entity and
    the authentication service (AuthService: register, login, getProfile),
    followed by the properties of the specification proved on it.

    The services are TypeScript classes that mutate one shared
    [UsersService] instance and signal business failures with [throw].
    Both effects are explicit here: a computation takes the store and
    returns an outcome (a returned value or a thrown exception) together
    with the store it leaves behind. *)

From Stdlib Require Import ZArith List String Ascii Bool Lia Sorted.
Import ListNotations.
Local Open Scope string_scope.
Local Open Scope Z_scope.

(** ** Primitive data *)

(** A JavaScript [Date], as milliseconds since the epoch. *)
Definition Date := Z.

(** The random salt bcrypt draws on each call of [bcrypt.hash]. *)
Definition Salt := string.

(** ** JSON Web Tokens *)

Module Jwt.

Record Header := { alg : string; typ : string }.

(** The decoded payload segment: the fields [login] passes to
    [jwtService.sign] plus the two timestamps the signer adds. *)
Record Claims := {
  sub : Z;
  email : string;
  username : string;
  iat : Z;
  exp : Z
}.

(** A compact token, kept as its three segments (header, payload,
    signature) before base64url encoding and joining with dots. *)
Record Token := {
  header : Header;
  payload : Claims;
  signature : string
}.

Definition decode (t : Token) : Claims := payload t.

End Jwt.

(** The keyed MAC behind the HS256 signature (library code). *)
Class Hs256 := {
  hs256 : string -> Jwt.Header -> Jwt.Claims -> string
}.

(** The two functions of the bcrypt library used by AuthService.
    [bcrypt_hash plaintext rounds salt] is [bcrypt.hash(plaintext, rounds)]
    with the salt it drew made explicit. *)
Class Bcrypt := {
  bcrypt_hash : string -> Z -> Salt -> string;
  bcrypt_compare : string -> string -> bool
}.

(** ** JavaScript values that appear in response bodies *)

#[warnings="-register-all"]
Inductive value :=
| VUndefined
| VNum (n : Z)
| VStr (s : string)
| VBool (b : bool)
| VDate (d : Date)
| VJwt (t : Jwt.Token)
| VObj (fields : list (string * value))
| VArr (items : list value).

(** A plain object: its own properties in insertion order. *)
Definition Object := list (string * value).

(** [o.k] *)
Definition prop (k : string) (o : Object) : value :=
  match find (fun kv => String.eqb (fst kv) k) o with
  | Some kv => snd kv
  | None => VUndefined
  end.

(** [const { k: _, ...rest } = o] *)
Definition rest_without (k : string) (o : Object) : Object :=
  filter (fun kv => negb (String.eqb (fst kv) k)) o.

(** [v === s] for a string [s]. *)
Definition str_is (v : value) (s : string) : bool :=
  match v with
  | VStr s' => String.eqb s' s
  | _ => false
  end.

(** Does the value carry a property named [k], at any depth? *)
Fixpoint has_field (k : string) (v : value) : bool :=
  match v with
  | VObj fields =>
      (fix go (l : list (string * value)) : bool :=
         match l with
         | [] => false
         | (k', v') :: r => String.eqb k' k || has_field k v' || go r
         end) fields
  | VArr items =>
      (fix go (l : list value) : bool :=
         match l with
         | [] => false
         | v' :: r => has_field k v' || go r
         end) items
  | _ => false
  end.

(** ** The User entity *)

Module User.

Record t := {
  id : Z;
  username : string;
  email : string;
  password : string;
  isActive : bool;
  createdAt : Date;
  updatedAt : Date
}.

(** [Omit<User, 'id' | 'createdAt'>], the argument of [create]. *)
Record Data := {
  d_username : string;
  d_email : string;
  d_password : string;
  d_isActive : bool;
  d_updatedAt : Date
}.

(** The object [create] builds: [{ id, ...userData, createdAt }]. *)
Definition toObject (u : t) : Object :=
  [ ("id", VNum (id u));
    ("username", VStr (username u));
    ("email", VStr (email u));
    ("password", VStr (password u));
    ("isActive", VBool (isActive u));
    ("updatedAt", VDate (updatedAt u));
    ("createdAt", VDate (createdAt u)) ].

End User.

(** ** Exceptions and outcomes *)

(** The NestJS HTTP exceptions thrown by the services. *)
Inductive HttpException :=
| ConflictException (message : string)
| UnauthorizedException (message : string)
| NotFoundException (message : string).

Definition getStatus (e : HttpException) : Z :=
  match e with
  | ConflictException _ => 409
  | UnauthorizedException _ => 401
  | NotFoundException _ => 404
  end.

Definition getMessage (e : HttpException) : string :=
  match e with
  | ConflictException m | UnauthorizedException m | NotFoundException m => m
  end.

Inductive Outcome (A : Type) :=
| Return (a : A)
| Throw (e : HttpException).
Arguments Return {A} a.
Arguments Throw {A} e.

Definition is_return {A} (o : Outcome A) : bool :=
  match o with Return _ => true | Throw _ => false end.

(** ** UsersService *)

Module UsersService.

(** The two private fields of the class. [idCounter] is a JavaScript
    number holding an integer; it is exact for every count the array can
    reach, and is kept as an integer here. *)
Record t := {
  users : list User.t;
  idCounter : Z
}.

(** [users = []], [idCounter = 1]. *)
Definition init : t := {| users := []; idCounter := 1 |}.

End UsersService.

(** Computations over the shared store that may throw. A throw keeps the
    store as it was at the throw. *)
Definition M (A : Type) : Type :=
  UsersService.t -> Outcome A * UsersService.t.

Definition ret {A} (a : A) : M A := fun st => (Return a, st).

Definition throw {A} (e : HttpException) : M A := fun st => (Throw e, st).

Definition bind {A B} (m : M A) (k : A -> M B) : M B :=
  fun st =>
    match m st with
    | (Return a, st') => k a st'
    | (Throw e, st') => (Throw e, st')
    end.

Definition gets {A} (f : UsersService.t -> A) : M A :=
  fun st => (Return (f st), st).

Definition put (st' : UsersService.t) : M unit := fun _ => (Return tt, st').

Notation "x <- c1 ;; c2" := (bind c1 (fun x => c2))
  (at level 61, c1 at next level, right associativity).
Notation "c1 ;;; c2" := (bind c1 (fun _ => c2))
  (at level 61, right associativity).

Module UsersServiceOps.
Import UsersService.

(** [create(userData)]: [id: this.idCounter++], the spread of
    [userData], [createdAt: new Date()], then [this.users.push]. The
    clock read by [new Date()] is the argument [now]. *)
Definition create (now : Date) (userData : User.Data) : M User.t :=
  st <- gets (fun st => st) ;;
  let newUser :=
    {| User.id := idCounter st;
       User.username := User.d_username userData;
       User.email := User.d_email userData;
       User.password := User.d_password userData;
       User.isActive := User.d_isActive userData;
       User.updatedAt := User.d_updatedAt userData;
       User.createdAt := now |} in
  put {| users := users st ++ [newUser]; idCounter := idCounter st + 1 |} ;;;
  ret newUser.

(** [this.users.find(user => user.email === email)] *)
Definition findByEmail (email : string) : M (option User.t) :=
  gets (fun st => find (fun user => String.eqb (User.email user) email) (users st)).

(** [this.users.find(user => user.id === id)] *)
Definition findById (id : Z) : M (option User.t) :=
  gets (fun st => find (fun user => Z.eqb (User.id user) id) (users st)).

(** [this.users.map(({ password, ...rest }) => rest)] *)
Definition findAll : M (list Object) :=
  gets (fun st => map (fun user => rest_without "password" (User.toObject user)) (users st)).

End UsersServiceOps.

(** ** JwtService *)

Module JwtService.

(** The options the signer is registered with. *)
Record t := {
  secret : string;
  expiresIn : Z
}.

(** The payload [login] hands to [sign]. *)
Record Payload := {
  p_sub : Z;
  p_email : string;
  p_username : string
}.

(** Modelled from the spec: the validity window of a token. The module
    file that registers the signer and sets its expiry is not among the
    sources; section 4.3 gives expiry as issue time plus 24 hours, and
    the comments of [login] show [exp - iat = 86400]. In seconds. *)
Definition expiresIn_24h : Z := 24 * 60 * 60.

(** Modelled from the spec: the signer registered for the application,
    with the process-wide secret and the 24 hour expiry. *)
Definition registered (secret : string) : t :=
  {| secret := secret; expiresIn := expiresIn_24h |}.

(** [jwtService.sign(payload)]: the library stamps [iat] with the
    current time in whole seconds, [exp] with [iat] plus the configured
    lifetime, and signs header and payload with the secret. *)
Definition sign `{Hs256} (jwt : t) (p : Payload) (now : Date) : Jwt.Token :=
  let hd := {| Jwt.alg := "HS256"; Jwt.typ := "JWT" |} in
  let issued := now / 1000 in
  let claims :=
    {| Jwt.sub := p_sub p;
       Jwt.email := p_email p;
       Jwt.username := p_username p;
       Jwt.iat := issued;
       Jwt.exp := issued + expiresIn jwt |} in
  {| Jwt.header := hd; Jwt.payload := claims; Jwt.signature := hs256 (secret jwt) hd claims |}.

End JwtService.

(** ** Request bodies *)

Record RegisterDto := {
  r_username : string;
  r_email : string;
  r_password : string
}.

Record LoginDto := {
  l_email : string;
  l_password : string
}.

(** ** AuthService *)

Module AuthService.
Import UsersServiceOps.

Section Service.
Context `{Bcrypt} `{Hs256}.
(** The injected [jwtService]; the injected [usersService] is the
    store every computation runs on. *)
Variable jwtService : JwtService.t.

(** [register(registerDto)], run from call to return. [salt] is the
    salt drawn by [bcrypt.hash]; [tUpdated] and [tCreated] are the
    clock at [updatedAt: new Date()] and at [createdAt: new Date()]. *)
Definition register (registerDto : RegisterDto) (salt : Salt)
    (tUpdated tCreated : Date) : M value :=
  let username := r_username registerDto in
  let email := r_email registerDto in
  let password := r_password registerDto in
  existingUserByEmail <- findByEmail email ;;
  match existingUserByEmail with
  | Some _ => throw (ConflictException "El email ya está registrado")
  | None =>
      all <- findAll ;;
      let existingUserByUsername :=
        find (fun user => str_is (prop "username" user) username) all in
      match existingUserByUsername with
      | Some _ => throw (ConflictException "El nombre de usuario ya está en uso")
      | None =>
          let hashedPassword := bcrypt_hash password 10 salt in
          newUser <- create tCreated
            {| User.d_username := username;
               User.d_email := email;
               User.d_password := hashedPassword;
               User.d_isActive := true;
               User.d_updatedAt := tUpdated |} ;;
          let userWithoutPassword := rest_without "password" (User.toObject newUser) in
          ret (VObj [ ("message", VStr "Usuario registrado exitosamente");
                      ("user", VObj userWithoutPassword) ])
      end
  end.

(** [login(loginDto)]. [now] is the clock read by the signer. *)
Definition login (loginDto : LoginDto) (now : Date) : M value :=
  let email := l_email loginDto in
  let password := l_password loginDto in
  found <- findByEmail email ;;
  match found with
  | None => throw (UnauthorizedException "Credenciales inválidas")
  | Some user =>
      if negb (User.isActive user)
      then throw (UnauthorizedException "Usuario desactivado. Contacte al administrador.")
      else
        let isPasswordValid := bcrypt_compare password (User.password user) in
        if negb isPasswordValid
        then throw (UnauthorizedException "Credenciales inválidas")
        else
          let payload :=
            {| JwtService.p_sub := User.id user;
               JwtService.p_email := User.email user;
               JwtService.p_username := User.username user |} in
          let access_token := JwtService.sign jwtService payload now in
          let userWithoutPassword := rest_without "password" (User.toObject user) in
          ret (VObj [ ("message", VStr "Login exitoso");
                      ("access_token", VJwt access_token);
                      ("user", VObj userWithoutPassword) ])
  end.

(** [getProfile(userId)] *)
Definition getProfile (userId : Z) : M value :=
  found <- findById userId ;;
  match found with
  | None => throw (NotFoundException "Usuario no encontrado")
  | Some user =>
      let userWithoutPassword := rest_without "password" (User.toObject user) in
      ret (VObj userWithoutPassword)
  end.

End Service.

End AuthService.

(** The names the specification gives to the business failures, as the
    exceptions the service throws for them. *)
Definition DuplicateEmail : HttpException :=
  ConflictException "El email ya está registrado".
Definition DuplicateUsername : HttpException :=
  ConflictException "El nombre de usuario ya está en uso".
Definition InvalidCredentials : HttpException :=
  UnauthorizedException "Credenciales inválidas".
Definition AccountDisabled : HttpException :=
  UnauthorizedException "Usuario desactivado. Contacte al administrador.".
Definition AccountNotFound : HttpException :=
  NotFoundException "Usuario no encontrado".

(** ** UsersController *)

Module UsersController.

(** [GET /users]: [return this.usersService.findAll()] *)
Definition findAll : M value :=
  all <- UsersServiceOps.findAll ;;
  ret (VArr (map VObj all)).

(** [GET /users/:id]: [return this.usersService.findById(+id)]. The
    argument is the integer the route parameter converts to; the stored
    record itself is the response body, [undefined] when none matches. *)
Definition findOne (id : Z) : M value :=
  found <- UsersServiceOps.findById id ;;
  ret (match found with
       | Some user => VObj (User.toObject user)
       | None => VUndefined
       end).

End UsersController.

(** ** The operations exposed to callers, and runs of them *)

Inductive Request :=
| PostRegister (dto : RegisterDto) (salt : Salt) (tUpdated tCreated : Date)
| PostLogin (dto : LoginDto) (now : Date)
| GetProfile (userId : Z)
| GetUsers
| GetUser (id : Z).

Module App.

Section Run.
Context `{Bcrypt} `{Hs256}.
Variable jwtService : JwtService.t.

Definition handle (req : Request) : M value :=
  match req with
  | PostRegister dto salt tUpdated tCreated =>
      AuthService.register dto salt tUpdated tCreated
  | PostLogin dto now => AuthService.login jwtService dto now
  | GetProfile userId => AuthService.getProfile userId
  | GetUsers => UsersController.findAll
  | GetUser id => UsersController.findOne id
  end.

(** Requests served one after the other, each to completion. *)
Fixpoint run (reqs : list Request) (st : UsersService.t)
    : list (Outcome value) * UsersService.t :=
  match reqs with
  | [] => ([], st)
  | req :: rest =>
      let (out, st1) := handle req st in
      let (outs, st2) := run rest st1 in
      (out :: outs, st2)
  end.

(** The id a registration response reports for the created account. *)
Definition created_id (req : Request) (out : Outcome value) : option Z :=
  match req, out with
  | PostRegister _ _ _ _, Return (VObj body) =>
      match prop "user" body with
      | VObj user =>
          match prop "id" user with
          | VNum n => Some n
          | _ => None
          end
      | _ => None
      end
  | _, _ => None
  end.

(** The ids handed out along a run, in the order of assignment. *)
Fixpoint assigned_ids (reqs : list Request) (st : UsersService.t) : list Z :=
  match reqs with
  | [] => []
  | req :: rest =>
      let (out, st1) := handle req st in
      match created_id req out with
      | Some n => n :: assigned_ids rest st1
      | None => assigned_ids rest st1
      end
  end.

End Run.

End App.

(** ** Response bodies and the password field *)

(** Does the body an operation responds with carry a [password]
    property? A thrown exception carries only its message. *)
Definition exposes_password (out : Outcome value) : bool :=
  match out with
  | Return body => has_field "password" body
  | Throw _ => false
  end.

(** ** [register] around its [await]

    [register] is an [async] method: it runs from the call to
    [await bcrypt.hash(...)] without interruption, and from the
    resumption to its [return] without interruption. Between the two,
    other requests may be served. The two halves: *)

Module Overlap.
Import UsersServiceOps.

(** From the call to the [await]: the two duplicate checks. *)
Definition register_checks (registerDto : RegisterDto) : M unit :=
  existingUserByEmail <- findByEmail (r_email registerDto) ;;
  match existingUserByEmail with
  | Some _ => throw (ConflictException "El email ya está registrado")
  | None =>
      all <- findAll ;;
      match find (fun user => str_is (prop "username" user) (r_username registerDto)) all with
      | Some _ => throw (ConflictException "El nombre de usuario ya está en uso")
      | None => ret tt
      end
  end.

(** From the resumption on: the account is created with the hash the
    awaited call produced, and the response is built. *)
Definition register_resume `{Bcrypt} (registerDto : RegisterDto) (salt : Salt)
    (tUpdated tCreated : Date) : M value :=
  let hashedPassword := bcrypt_hash (r_password registerDto) 10 salt in
  newUser <- create tCreated
    {| User.d_username := r_username registerDto;
       User.d_email := r_email registerDto;
       User.d_password := hashedPassword;
       User.d_isActive := true;
       User.d_updatedAt := tUpdated |} ;;
  let userWithoutPassword := rest_without "password" (User.toObject newUser) in
  ret (VObj [ ("message", VStr "Usuario registrado exitosamente");
              ("user", VObj userWithoutPassword) ]).

End Overlap.

(** ** The event loop

    The services run on the single JavaScript thread, one turn at a
    time. A request other than a registration touches the store within
    one turn ([login] reads the account before its [await] and only that
    account object, which nothing modifies, after it). A registration
    takes two turns: the call, up to [await bcrypt.hash], and the
    resumption; any number of other turns may run in between. *)

Module EventLoop.

(** The store and the calls of [register] suspended at their [await],
    oldest first. *)
Record t := {
  store : UsersService.t;
  suspended : list RegisterDto
}.

Definition start : t := {| store := UsersService.init; suspended := [] |}.

Inductive Turn :=
| Serve (req : Request)
| RegisterCall (dto : RegisterDto)
| RegisterResume (i : nat) (salt : Salt) (tUpdated tCreated : Date).

Fixpoint remove_nth {A} (i : nat) (l : list A) : list A :=
  match l, i with
  | [], _ => []
  | _ :: r, O => r
  | x :: r, S j => x :: remove_nth j r
  end.

(** The id a response body reports under [user.id]. *)
Definition reported_id (out : option (Outcome value)) : option Z :=
  match out with
  | Some (Return (VObj body)) =>
      match prop "user" body with
      | VObj user =>
          match prop "id" user with
          | VNum n => Some n
          | _ => None
          end
      | _ => None
      end
  | _ => None
  end.

(** The turns in which a registration can return. *)
Definition is_registration (step : Turn) : bool :=
  match step with
  | Serve (PostRegister _ _ _ _) => true
  | RegisterResume _ _ _ _ => true
  | _ => false
  end.

(** The id a turn hands out: the one a returning registration reports. *)
Definition created (e : Turn * option (Outcome value)) : option Z :=
  if is_registration (fst e) then reported_id (snd e) else None.

(** Is the entry a registration that returned successfully? *)
Definition returned (e : Turn * option (Outcome value)) : bool :=
  is_registration (fst e) &&
  match snd e with
  | Some (Return _) => true
  | _ => false
  end.

Section Loop.
Context `{Bcrypt} `{Hs256}.
Variable jwtService : JwtService.t.

(** One turn: the response it sends, if it sends one, and the loop it
    leaves. [Serve] is a request served with no other turn inside it;
    [RegisterCall] runs the checks and, when they pass, suspends;
    [RegisterResume i] resumes the [i]-th suspended call (and is an
    empty turn when there is none). *)
Definition turn (step : Turn) (l : t) : option (Outcome value) * t :=
  match step with
  | Serve req =>
      let r := App.handle jwtService req (store l) in
      (Some (fst r), {| store := snd r; suspended := suspended l |})
  | RegisterCall dto =>
      let r := Overlap.register_checks dto (store l) in
      match fst r with
      | Return _ => (None, {| store := snd r; suspended := suspended l ++ [dto] |})
      | Throw e => (Some (Throw e), {| store := snd r; suspended := suspended l |})
      end
  | RegisterResume i salt tUpdated tCreated =>
      match nth_error (suspended l) i with
      | Some dto =>
          let r := Overlap.register_resume dto salt tUpdated tCreated (store l) in
          (Some (fst r), {| store := snd r; suspended := remove_nth i (suspended l) |})
      | None => (None, l)
      end
  end.

(** A schedule of turns: what each turn sent, and the final loop. *)
Fixpoint play (turns : list Turn) (l : t)
    : list (Turn * option (Outcome value)) * t :=
  match turns with
  | [] => ([], l)
  | step :: rest =>
      let r := turn step l in
      let p := play rest (snd r) in
      ((step, fst r) :: fst p, snd p)
  end.

(** The ids handed out along a schedule, in the order of creation. *)
Definition assigned_ids (turns : list Turn) (l : t) : list Z :=
  flat_map (fun e => match created e with Some n => [n] | None => [] end)
           (fst (play turns l)).

(** The number of registrations of a schedule that returned. *)
Definition registrations_returned (turns : list Turn) (l : t) : nat :=
  List.length (filter returned (fst (play turns l))).

End Loop.

End EventLoop.

(** ** What the specification calls the failure of each operation *)

Definition thrown {A} (o : Outcome A) : option HttpException :=
  match o with
  | Return _ => None
  | Throw e => Some e
  end.

Module Signals.

(** Section 4.4, register steps 1 and 2. *)
Definition register_signal (st : UsersService.t) (dto : RegisterDto)
    : option HttpException :=
  if existsb (fun u => String.eqb (User.email u) (r_email dto)) (UsersService.users st)
  then Some DuplicateEmail
  else if existsb (fun u => String.eqb (User.username u) (r_username dto))
                  (UsersService.users st)
  then Some DuplicateUsername
  else None.

(** Section 4.4, login steps 1 to 3. *)
Definition login_signal `{Bcrypt} (st : UsersService.t) (dto : LoginDto)
    : option HttpException :=
  match find (fun u => String.eqb (User.email u) (l_email dto)) (UsersService.users st) with
  | None => Some InvalidCredentials
  | Some u =>
      if User.isActive u
      then if bcrypt_compare (l_password dto) (User.password u)
           then None
           else Some InvalidCredentials
      else Some AccountDisabled
  end.

(** Section 4.4, getProfile step 1. *)
Definition profile_signal (st : UsersService.t) (userId : Z)
    : option HttpException :=
  if existsb (fun u => Z.eqb (User.id u) userId) (UsersService.users st)
  then None
  else Some AccountNotFound.

End Signals.

(** ** Store invariants *)

Definition unique_emails (st : UsersService.t) : Prop :=
  NoDup (map User.email (UsersService.users st)).

Definition unique_usernames (st : UsersService.t) : Prop :=
  NoDup (map User.username (UsersService.users st)).

(** The ids of the stored accounts are 1, 2, ..., n in array order and
    the counter is n + 1. *)
Definition consecutive_ids (st : UsersService.t) : Prop :=
  map User.id (UsersService.users st)
    = map Z.of_nat (seq 1 (List.length (UsersService.users st))) /\
  UsersService.idCounter st = Z.of_nat (List.length (UsersService.users st)) + 1.

Definition all_active (st : UsersService.t) : Prop :=
  Forall (fun u => User.isActive u = true) (UsersService.users st).

(** Every stored password is an output of [bcrypt.hash] at cost 10. *)
Definition all_hashed `{Bcrypt} (st : UsersService.t) : Prop :=
  Forall (fun u => exists plaintext salt, User.password u = bcrypt_hash plaintext 10 salt)
         (UsersService.users st).

(** ** The account a registration stores

    The record [register] hands to [create], completed by [create] with
    the id and the creation time. *)
Definition registered_account `{Bcrypt} (id : Z) (registerDto : RegisterDto)
    (salt : Salt) (tUpdated tCreated : Date) : User.t :=
  {| User.id := id;
     User.username := r_username registerDto;
     User.email := r_email registerDto;
     User.password := bcrypt_hash (r_password registerDto) 10 salt;
     User.isActive := true;
     User.updatedAt := tUpdated;
     User.createdAt := tCreated |}.

(** The object a response shows for an account. *)
Definition public (u : User.t) : Object :=
  rest_without "password" (User.toObject u).

(** ** A small instance to run the model on

    A stand-in for the two libraries, enough to evaluate the services on
    concrete requests: the hash is the salt, a dollar sign and the
    plaintext; the comparison recomputes it from the stored salt. *)

Module Demo.

Definition after_dollar (h : string) : option string :=
  match index 0 "$" h with
  | Some i => Some (substring (S i) (String.length h - S i) h)
  | None => None
  end.

#[local] Instance bcrypt : Bcrypt := {|
  bcrypt_hash := fun plaintext _ salt => salt ++ "$" ++ plaintext;
  bcrypt_compare := fun plaintext hashed =>
    match after_dollar hashed with
    | Some p => String.eqb p plaintext
    | None => false
    end
|}.

#[local] Instance mac : Hs256 := {|
  hs256 := fun secret _ claims => secret ++ "." ++ Jwt.email claims
|}.

Definition jwtService : JwtService.t := JwtService.registered "s3cr3t".

(** The services and the request loop at this instance. *)
Definition register := @AuthService.register bcrypt.
Definition login := @AuthService.login bcrypt mac jwtService.
Definition handle := @App.handle bcrypt mac jwtService.
Definition run := @App.run bcrypt mac jwtService.
Definition assigned_ids := @App.assigned_ids bcrypt mac jwtService.
Definition compare := @bcrypt_compare bcrypt.
Definition play := @EventLoop.play bcrypt mac jwtService.

Definition juan : RegisterDto :=
  {| r_username := "juanperez"; r_email := "juan@test.com"; r_password := "miPassword123" |}.

(** Same email as [juan], same username as [juan]. *)
Definition juan_again : RegisterDto :=
  {| r_username := "juanperez"; r_email := "juan@test.com"; r_password := "otraClave9" |}.

Definition maria : RegisterDto :=
  {| r_username := "maria123"; r_email := "maria@test.com"; r_password := "miPassword123" |}.

(** The store after [juan] registered at time 1000. *)
Definition one_user : UsersService.t :=
  snd (register juan "salt1" 1000 1000 UsersService.init).

(** A store whose only account has been deactivated. *)
Definition one_disabled : UsersService.t :=
  {| UsersService.users :=
       [ {| User.id := 1; User.username := "juanperez"; User.email := "juan@test.com";
            User.password := "salt1$miPassword123"; User.isActive := false;
            User.createdAt := 1000; User.updatedAt := 2000 |} ];
     UsersService.idCounter := 2 |}.

End Demo.

(** * Properties *)

(** ** Running the monad *)

Ltac unfold_services :=
  unfold AuthService.register, AuthService.login, AuthService.getProfile,
         UsersController.findAll, UsersController.findOne,
         UsersServiceOps.create, UsersServiceOps.findByEmail,
         UsersServiceOps.findById, UsersServiceOps.findAll,
         bind, gets, put, ret, throw in *.

(** ** Lookups in the user array *)

Section Lookups.
Import UsersService.

Lemma find_email_none (l : list User.t) (e : string) :
  find (fun user => String.eqb (User.email user) e) l = None <->
  ~ In e (map User.email l).
Proof.
  induction l as [|u l IH]; simpl.
  - tauto.
  - destruct (String.eqb_spec (User.email u) e) as [E|E].
    + split; [discriminate | intros N; exfalso; apply N; now left].
    + rewrite IH. tauto.
Qed.

Lemma find_email_some (l : list User.t) (e : string) (u : User.t) :
  find (fun user => String.eqb (User.email user) e) l = Some u ->
  In u l /\ User.email u = e.
Proof.
  intros F. apply find_some in F. destruct F as [I E].
  split; [exact I | now apply String.eqb_eq].
Qed.

(** With unique emails, looking an account up by its email finds it. *)
Lemma find_email_unique (l : list User.t) (u : User.t) :
  NoDup (map User.email l) -> In u l ->
  find (fun user => String.eqb (User.email user) (User.email u)) l = Some u.
Proof.
  induction l as [|v l IH]; simpl; intros ND I.
  - contradiction.
  - inversion ND as [|? ? NI ND']; subst.
    destruct I as [->|I].
    + now rewrite String.eqb_refl.
    + destruct (String.eqb_spec (User.email v) (User.email u)) as [E|E].
      * exfalso. apply NI. rewrite E. now apply in_map.
      * now apply IH.
Qed.

Lemma existsb_email (l : list User.t) (e : string) :
  existsb (fun u => String.eqb (User.email u) e) l = true <->
  In e (map User.email l).
Proof.
  rewrite existsb_exists, in_map_iff.
  split; intros [u [A B]]; exists u.
  - apply String.eqb_eq in B. tauto.
  - split; [tauto | now apply String.eqb_eq].
Qed.

Lemma existsb_username (l : list User.t) (n : string) :
  existsb (fun u => String.eqb (User.username u) n) l = true <->
  In n (map User.username l).
Proof.
  rewrite existsb_exists, in_map_iff.
  split; intros [u [A B]]; exists u.
  - apply String.eqb_eq in B. tauto.
  - split; [tauto | now apply String.eqb_eq].
Qed.

(** The rest object keeps the username of the record it came from. *)
Lemma public_username (u : User.t) :
  prop "username" (rest_without "password" (User.toObject u)) = VStr (User.username u).
Proof. reflexivity. Qed.

Lemma public_id (u : User.t) :
  prop "id" (rest_without "password" (User.toObject u)) = VNum (User.id u).
Proof. reflexivity. Qed.

(** The username scan of [register] over [findAll()] decides whether
    the username is stored. *)
Lemma find_username_scan (l : list User.t) (n : string) :
  find (fun user => str_is (prop "username" user) n)
       (map (fun user => rest_without "password" (User.toObject user)) l) = None <->
  ~ In n (map User.username l).
Proof.
  induction l as [|u l IH].
  - simpl. tauto.
  - cbn [map find]. rewrite public_username. cbn [str_is].
    destruct (String.eqb_spec (User.username u) n) as [E|E].
    + split; [discriminate | intros N; exfalso; apply N; now left].
    + rewrite IH. simpl. tauto.
Qed.

Lemma NoDup_snoc {A} (l : list A) (x : A) :
  NoDup l -> ~ In x l -> NoDup (l ++ [x]).
Proof.
  induction l as [|y l IH]; simpl; intros ND NI.
  - constructor; [tauto | constructor].
  - inversion ND as [|? ? NY ND']; subst. constructor.
    + rewrite in_app_iff. simpl. intros [I|[E|[]]]; [tauto|].
      apply NI. now left.
    + apply IH; tauto.
Qed.

End Lookups.

(** ** What each operation does to the store and what it throws *)

Section Operations.
Context `{Bcrypt} `{Hs256}.
Variable jwtService : JwtService.t.
Import UsersService.

(** [register] in one equation: the two checks in order, then the
    account appended under the current counter. *)
Lemma register_cases (dto : RegisterDto) (salt : Salt) (tU tC : Date) (st : t) :
  (In (r_email dto) (map User.email (users st)) /\
   AuthService.register dto salt tU tC st = (Throw DuplicateEmail, st)) \/
  (~ In (r_email dto) (map User.email (users st)) /\
   In (r_username dto) (map User.username (users st)) /\
   AuthService.register dto salt tU tC st = (Throw DuplicateUsername, st)) \/
  (~ In (r_email dto) (map User.email (users st)) /\
   ~ In (r_username dto) (map User.username (users st)) /\
   exists body,
     let newUser :=
       {| User.id := idCounter st;
          User.username := r_username dto;
          User.email := r_email dto;
          User.password := bcrypt_hash (r_password dto) 10 salt;
          User.isActive := true;
          User.updatedAt := tU;
          User.createdAt := tC |} in
     body = VObj [ ("message", VStr "Usuario registrado exitosamente");
                   ("user", VObj (rest_without "password" (User.toObject newUser))) ] /\
     AuthService.register dto salt tU tC st =
       (Return body,
        {| users := users st ++ [newUser]; idCounter := idCounter st + 1 |})).
Proof.
  unfold_services.
  destruct (find (fun user => String.eqb (User.email user) (r_email dto)) (users st))
    as [u|] eqn:FE.
  - left. split; [|reflexivity].
    apply find_email_some in FE. destruct FE as [I E].
    rewrite <- E. now apply in_map.
  - right. apply find_email_none in FE.
    destruct (find (fun user => str_is (prop "username" user) (r_username dto))
                (map (fun user => rest_without "password" (User.toObject user)) (users st)))
      as [o|] eqn:FU.
    + left. split; [exact FE|]. split; [|reflexivity].
      destruct (in_dec string_dec (r_username dto) (map User.username (users st)))
        as [I|NI]; [exact I|].
      apply find_username_scan in NI. congruence.
    + right. apply find_username_scan in FU.
      split; [exact FE|]. split; [exact FU|].
      eexists. split; reflexivity.
Qed.

Lemma login_cases (dto : LoginDto) (now : Date) (st : t) :
  AuthService.login jwtService dto now st =
    match find (fun user => String.eqb (User.email user) (l_email dto)) (users st) with
    | None => (Throw InvalidCredentials, st)
    | Some user =>
        if User.isActive user then
          if bcrypt_compare (l_password dto) (User.password user) then
            (Return (VObj [ ("message", VStr "Login exitoso");
                            ("access_token",
                             VJwt (JwtService.sign jwtService
                                     {| JwtService.p_sub := User.id user;
                                        JwtService.p_email := User.email user;
                                        JwtService.p_username := User.username user |}
                                     now));
                            ("user", VObj (rest_without "password" (User.toObject user))) ]),
             st)
          else (Throw InvalidCredentials, st)
        else (Throw AccountDisabled, st)
    end.
Proof.
  unfold_services.
  destruct (find _ (users st)) as [u|]; [|reflexivity].
  destruct (User.isActive u); [|reflexivity].
  destruct (bcrypt_compare _ _); reflexivity.
Qed.

Lemma getProfile_cases (userId : Z) (st : t) :
  AuthService.getProfile userId st =
    match find (fun user => Z.eqb (User.id user) userId) (users st) with
    | None => (Throw AccountNotFound, st)
    | Some user => (Return (VObj (rest_without "password" (User.toObject user))), st)
    end.
Proof.
  unfold_services.
  destruct (find _ (users st)); reflexivity.
Qed.

Lemma login_store (dto : LoginDto) (now : Date) (st : t) :
  snd (AuthService.login jwtService dto now st) = st.
Proof.
  rewrite login_cases.
  destruct (find _ _) as [u|]; [|reflexivity].
  destruct (User.isActive u); [|reflexivity].
  destruct (bcrypt_compare _ _); reflexivity.
Qed.

Lemma getProfile_store (userId : Z) (st : t) :
  snd (AuthService.getProfile userId st) = st.
Proof.
  rewrite getProfile_cases. destruct (find _ _); reflexivity.
Qed.

Lemma findAll_store (st : t) : snd (UsersController.findAll st) = st.
Proof. reflexivity. Qed.

Lemma findOne_store (id : Z) (st : t) : snd (UsersController.findOne id st) = st.
Proof. reflexivity. Qed.

(** One request either creates an account under the current counter
    and advances the counter by one, or creates nothing and leaves the
    whole store as it was. *)
Lemma handle_step (req : Request) (st : t) :
  (exists u,
      App.created_id req (fst (App.handle jwtService req st)) = Some (idCounter st) /\
      User.id u = idCounter st /\
      ~ In (User.email u) (map User.email (users st)) /\
      ~ In (User.username u) (map User.username (users st)) /\
      snd (App.handle jwtService req st) =
        {| users := users st ++ [u]; idCounter := idCounter st + 1 |}) \/
  (App.created_id req (fst (App.handle jwtService req st)) = None /\
   snd (App.handle jwtService req st) = st).
Proof.
  destruct req as [dto salt tU tC | dto now | userId | | id]; cbn [App.handle].
  - destruct (register_cases dto salt tU tC st)
      as [[_ E] | [[_ [_ E]] | [NE [NU [body [B E]]]]]]; rewrite E.
    + right. split; reflexivity.
    + right. split; reflexivity.
    + left.
      exists {| User.id := idCounter st;
                User.username := r_username dto;
                User.email := r_email dto;
                User.password := bcrypt_hash (r_password dto) 10 salt;
                User.isActive := true;
                User.updatedAt := tU;
                User.createdAt := tC |}.
      cbn [fst snd]. rewrite B.
      split; [reflexivity|]. split; [reflexivity|].
      split; [exact NE|]. split; [exact NU | reflexivity].
  - right. split; [|apply login_store].
    destruct (fst _); reflexivity.
  - right. split; [|apply getProfile_store].
    destruct (fst _); reflexivity.
  - right. split; reflexivity.
  - right. split; [|reflexivity].
    destruct (fst _); reflexivity.
Qed.

End Operations.

(** ** Login failures *)

(** C1. In any store, a login whose email matches no stored account and a
    login whose email finds an active account but whose password fails
    verification against the stored hash both throw the same exception,
    InvalidCredentials, with the same message; neither path has a signal
    of its own for an unknown email. *)
Theorem login_anti_enumeration `{Bcrypt} `{Hs256}
    (jwtService : JwtService.t) (st : UsersService.t)
    (unknown known pw pw' : string) (now now' : Date) (u : User.t) :
  ~ In unknown (map User.email (UsersService.users st)) ->
  UsersServiceOps.findByEmail known st = (Return (Some u), st) ->
  User.isActive u = true ->
  bcrypt_compare pw' (User.password u) = false ->
  let absent := fst (AuthService.login jwtService {| l_email := unknown; l_password := pw |} now st) in
  let wrong := fst (AuthService.login jwtService {| l_email := known; l_password := pw' |} now' st) in
  absent = Throw InvalidCredentials /\
  wrong = Throw InvalidCredentials /\
  thrown absent = thrown wrong /\
  option_map getMessage (thrown absent) = Some "Credenciales inválidas" /\
  option_map getMessage (thrown wrong) = Some "Credenciales inválidas".
Proof.
  intros NI F A C absent wrong.
  assert (Ea : absent = Throw InvalidCredentials).
  { subst absent. rewrite login_cases. cbn [l_email].
    apply find_email_none in NI. now rewrite NI. }
  assert (Ew : wrong = Throw InvalidCredentials).
  { subst wrong. rewrite login_cases. cbn [l_email l_password].
    unfold UsersServiceOps.findByEmail, gets in F.
    injection F as F. now rewrite F, A, C. }
  rewrite Ea, Ew. repeat split.
Qed.

Lemma login_anti_enumeration_witness :
  let st := Demo.one_user in
  let absent :=
    fst (Demo.login {| l_email := "nadie@test.com"; l_password := "miPassword123" |} 5000 st) in
  let wrong :=
    fst (Demo.login {| l_email := "juan@test.com"; l_password := "clave-mala" |} 6000 st) in
  ~ In "nadie@test.com" (map User.email (UsersService.users st)) /\
  absent = Throw InvalidCredentials /\
  wrong = Throw InvalidCredentials.
Proof.
  intros st absent wrong.
  assert (NI : ~ In "nadie@test.com" (map User.email (UsersService.users st))).
  { vm_compute. intros [E|[]]. discriminate E. }
  split; [exact NI|].
  destruct (@login_anti_enumeration Demo.bcrypt Demo.mac Demo.jwtService st
              "nadie@test.com" "juan@test.com" "miPassword123" "clave-mala" 5000 6000
              {| User.id := 1; User.username := "juanperez"; User.email := "juan@test.com";
                 User.password := "salt1$miPassword123"; User.isActive := true;
                 User.createdAt := 1000; User.updatedAt := 1000 |}
              NI eq_refl eq_refl eq_refl) as [Ea [Ew _]].
  split; [exact Ea | exact Ew].
Defined.

(** C5. For every stored account whose [isActive] flag is false (in a
    store with unique emails), a login with that account's email throws
    AccountDisabled whatever the password, the correct one included: the
    check of the flag comes before the password is verified. *)
Theorem login_disabled_account `{Bcrypt} `{Hs256}
    (jwtService : JwtService.t) (st : UsersService.t)
    (u : User.t) (pw : string) (now : Date) :
  unique_emails st ->
  In u (UsersService.users st) ->
  User.isActive u = false ->
  AuthService.login jwtService {| l_email := User.email u; l_password := pw |} now st
    = (Throw AccountDisabled, st).
Proof.
  intros U I A.
  rewrite login_cases. cbn [l_email l_password].
  rewrite (find_email_unique _ _ U I), A. reflexivity.
Qed.

Lemma login_disabled_account_witness :
  let u := {| User.id := 1; User.username := "juanperez"; User.email := "juan@test.com";
              User.password := "salt1$miPassword123"; User.isActive := false;
              User.createdAt := 1000; User.updatedAt := 2000 |} in
  Demo.compare "miPassword123" (User.password u) = true /\
  Demo.login {| l_email := "juan@test.com"; l_password := "miPassword123" |} 7000
    Demo.one_disabled
    = (Throw AccountDisabled, Demo.one_disabled).
Proof.
  intros u. split; [reflexivity|].
  apply (@login_disabled_account Demo.bcrypt Demo.mac Demo.jwtService
           Demo.one_disabled u "miPassword123" 7000).
  - unfold unique_emails. simpl. constructor; [intros [] | constructor].
  - simpl. left. reflexivity.
  - reflexivity.
Defined.

(** ** Registration conflicts *)

(** C4. When both the email and the username of a registration are
    already stored, the conflict thrown is DuplicateEmail, never
    DuplicateUsername: the email check reports first, in every store and
    for every input. *)
Theorem register_email_conflict_first `{Bcrypt}
    (st : UsersService.t) (dto : RegisterDto) (salt : Salt) (tUpdated tCreated : Date) :
  In (r_email dto) (map User.email (UsersService.users st)) ->
  In (r_username dto) (map User.username (UsersService.users st)) ->
  fst (AuthService.register dto salt tUpdated tCreated st) = Throw DuplicateEmail /\
  fst (AuthService.register dto salt tUpdated tCreated st) <> Throw DuplicateUsername.
Proof.
  intros IE IU.
  destruct (register_cases dto salt tUpdated tCreated st)
    as [[_ E] | [[NE _] | [NE _]]]; try contradiction.
  rewrite E. simpl. split; [reflexivity | discriminate].
Qed.

Lemma register_email_conflict_first_witness :
  In (r_email Demo.juan_again) (map User.email (UsersService.users Demo.one_user)) /\
  In (r_username Demo.juan_again) (map User.username (UsersService.users Demo.one_user)) /\
  fst (Demo.register Demo.juan_again "salt2" 3000 3000 Demo.one_user)
    = Throw (ConflictException "El email ya está registrado").
Proof.
  assert (IE : In (r_email Demo.juan_again)
                 (map User.email (UsersService.users Demo.one_user))).
  { vm_compute. left. reflexivity. }
  assert (IU : In (r_username Demo.juan_again)
                 (map User.username (UsersService.users Demo.one_user))).
  { vm_compute. left. reflexivity. }
  split; [exact IE|]. split; [exact IU|].
  exact (proj1 (@register_email_conflict_first Demo.bcrypt Demo.one_user Demo.juan_again
                  "salt2" 3000 3000 IE IU)).
Defined.

(** ** Failing operations and the store *)

(** C10. Failing operations leave the store unchanged: whenever
    [register] throws (DuplicateEmail or DuplicateUsername are its only
    throws) the user array and the id counter are those of before the
    call; [login] and [getProfile] leave the store as it was on every
    path, returning or throwing. *)
Theorem failing_operations_keep_store `{Bcrypt} `{Hs256}
    (jwtService : JwtService.t) (st : UsersService.t) :
  (forall dto salt tUpdated tCreated e,
      fst (AuthService.register dto salt tUpdated tCreated st) = Throw e ->
      (e = DuplicateEmail \/ e = DuplicateUsername) /\
      snd (AuthService.register dto salt tUpdated tCreated st) = st) /\
  (forall dto now, snd (AuthService.login jwtService dto now st) = st) /\
  (forall userId, snd (AuthService.getProfile userId st) = st).
Proof.
  split; [|split].
  - intros dto salt tU tC e T.
    destruct (register_cases dto salt tU tC st)
      as [[_ E] | [[_ [_ E]] | [_ [_ [body [_ E]]]]]];
      rewrite E in T |- *; simpl in *.
    + injection T as <-. auto.
    + injection T as <-. auto.
    + discriminate T.
  - intros dto now. rewrite login_cases.
    destruct (find _ _) as [u|]; [|reflexivity].
    destruct (User.isActive u); [|reflexivity].
    destruct (bcrypt_compare _ _); reflexivity.
  - intros userId. rewrite getProfile_cases.
    destruct (find _ _); reflexivity.
Qed.

Lemma failing_operations_keep_store_witness :
  fst (Demo.register Demo.juan_again "salt2" 3000 3000 Demo.one_user)
    = Throw DuplicateEmail /\
  snd (Demo.register Demo.juan_again "salt2" 3000 3000 Demo.one_user)
    = Demo.one_user.
Proof.
  assert (T : fst (Demo.register Demo.juan_again "salt2" 3000 3000 Demo.one_user)
              = Throw DuplicateEmail) by reflexivity.
  split; [exact T|].
  exact (proj2 (proj1 (@failing_operations_keep_store Demo.bcrypt Demo.mac
                         Demo.jwtService Demo.one_user)
                  Demo.juan_again "salt2" 3000 3000 DuplicateEmail T)).
Defined.

(** ** Runs of requests from the empty store *)

Section Runs.
Context `{Bcrypt} `{Hs256}.
Variable jwtService : JwtService.t.
Import UsersService.

Lemma run_cons (req : Request) (rest : list Request) (st : t) :
  snd (App.run jwtService (req :: rest) st) =
  snd (App.run jwtService rest (snd (App.handle jwtService req st))).
Proof.
  cbn [App.run].
  destruct (App.handle jwtService req st) as [out st1].
  destruct (App.run jwtService rest st1) as [outs st2] eqn:R.
  cbn [snd]. now rewrite R.
Qed.

Lemma handle_unique (req : Request) (st : t) :
  unique_emails st -> unique_usernames st ->
  unique_emails (snd (App.handle jwtService req st)) /\
  unique_usernames (snd (App.handle jwtService req st)).
Proof.
  intros UE UN.
  destruct (handle_step jwtService req st)
    as [[u [_ [_ [NE [NU E]]]]] | [_ E]]; rewrite E.
  - unfold unique_emails, unique_usernames in *. cbn [users].
    rewrite !map_app. cbn [map].
    split; apply NoDup_snoc; assumption.
  - tauto.
Qed.

Lemma run_unique (reqs : list Request) :
  forall st, unique_emails st -> unique_usernames st ->
  unique_emails (snd (App.run jwtService reqs st)) /\
  unique_usernames (snd (App.run jwtService reqs st)).
Proof.
  induction reqs as [|req rest IH]; intros st UE UN.
  - cbn. tauto.
  - rewrite run_cons.
    destruct (handle_unique req st UE UN) as [UE' UN'].
    now apply IH.
Qed.

Lemma assigned_ids_cons (req : Request) (rest : list Request) (st : t) :
  App.assigned_ids jwtService (req :: rest) st =
  match App.created_id req (fst (App.handle jwtService req st)) with
  | Some n => n :: App.assigned_ids jwtService rest (snd (App.handle jwtService req st))
  | None => App.assigned_ids jwtService rest (snd (App.handle jwtService req st))
  end.
Proof.
  cbn [App.assigned_ids].
  destruct (App.handle jwtService req st) as [out st1]. reflexivity.
Qed.

(** The ids handed out along a run are the consecutive integers from
    the counter the run started with. *)
Lemma assigned_ids_from_counter (reqs : list Request) :
  forall st,
    App.assigned_ids jwtService reqs st =
    map (fun k => idCounter st + Z.of_nat k)
        (seq 0 (List.length (App.assigned_ids jwtService reqs st))).
Proof.
  induction reqs as [|req rest IH]; intros st.
  - reflexivity.
  - rewrite assigned_ids_cons.
    destruct (handle_step jwtService req st)
      as [[u [C [_ [_ [_ E]]]]] | [C E]]; rewrite C, E.
    + cbn [List.length seq map]. f_equal; [lia|].
      rewrite IH at 1. cbn [idCounter].
      rewrite <- seq_shift, map_map.
      apply map_ext. intros k. lia.
    + apply IH.
Qed.

Lemma consecutive_sorted (c : Z) (n s : nat) :
  StronglySorted Z.lt (map (fun k => c + Z.of_nat k) (seq s n)).
Proof.
  revert s. induction n as [|n IH]; intros s; cbn [seq map].
  - constructor.
  - constructor; [apply IH|].
    apply Forall_forall. intros x I.
    apply in_map_iff in I. destruct I as [k [<- I]].
    apply in_seq in I. lia.
Qed.

End Runs.

(** X18. When requests are served one after the other, each to
    completion before the next starts, identity uniqueness is kept:
    after any such sequence of register, login, getProfile, list-users
    and get-user requests from the empty store, no two stored accounts
    share an email and no two share a username. (Registrations that
    overlap at the [await] are outside this statement.) *)
Theorem store_identity_unique `{Bcrypt} `{Hs256}
    (jwtService : JwtService.t) (reqs : list Request) :
  let st := snd (App.run jwtService reqs UsersService.init) in
  NoDup (map User.email (UsersService.users st)) /\
  NoDup (map User.username (UsersService.users st)).
Proof.
  apply (run_unique jwtService reqs UsersService.init); constructor.
Qed.

(** Along requests served one after the other from the empty store, the
    ids reported by the registration responses are strictly increasing
    and are 1, 2, 3, ... *)
Lemma run_ids_strictly_increasing `{Bcrypt} `{Hs256}
    (jwtService : JwtService.t) (reqs : list Request) :
  let ids := App.assigned_ids jwtService reqs UsersService.init in
  StronglySorted Z.lt ids /\
  NoDup ids /\
  ids = map Z.of_nat (seq 1 (List.length ids)).
Proof.
  intros ids.
  assert (E : ids = map (fun k => 1 + Z.of_nat k) (seq 0 (List.length ids))).
  { subst ids. apply (assigned_ids_from_counter jwtService reqs UsersService.init). }
  assert (S : StronglySorted Z.lt ids).
  { rewrite E. apply consecutive_sorted. }
  split; [exact S|]. split.
  - clear E. induction S as [|x l S IH F]; constructor; [|exact IH].
    intros I. rewrite Forall_forall in F. specialize (F x I). lia.
  - rewrite E at 1. rewrite <- seq_shift, map_map.
    apply map_ext. intros k. lia.
Qed.

(** ** Tokens *)

(** C6. Every token issued by a successful login (with the signer
    registered for the application) carries claims whose [sub] is the id
    of the account found for the email, whose [email] and [username] are
    that account's, whose [iat] is the time of issue in seconds and whose
    [exp] is exactly 24 hours (86400 seconds) after its [iat]. *)
Theorem login_token_claims `{Bcrypt} `{Hs256}
    (secret : string) (st st' : UsersService.t) (dto : LoginDto) (now : Date)
    (body : value) :
  AuthService.login (JwtService.registered secret) dto now st = (Return body, st') ->
  exists (user : User.t) (token : Jwt.Token),
    UsersServiceOps.findByEmail (l_email dto) st = (Return (Some user), st) /\
    body = VObj [ ("message", VStr "Login exitoso");
                  ("access_token", VJwt token);
                  ("user", VObj (rest_without "password" (User.toObject user))) ] /\
    Jwt.sub (Jwt.decode token) = User.id user /\
    Jwt.email (Jwt.decode token) = User.email user /\
    Jwt.username (Jwt.decode token) = User.username user /\
    Jwt.iat (Jwt.decode token) = now / 1000 /\
    Jwt.exp (Jwt.decode token) = Jwt.iat (Jwt.decode token) + 24 * 60 * 60.
Proof.
  rewrite login_cases.
  unfold UsersServiceOps.findByEmail, gets.
  destruct (find _ (UsersService.users st)) as [user|]; [|discriminate].
  destruct (User.isActive user); [|discriminate].
  destruct (bcrypt_compare _ _); [|discriminate].
  intros E. injection E as <- _.
  exists user. eexists. split; [reflexivity|]. split; [reflexivity|].
  repeat split.
Qed.

Lemma login_token_claims_witness :
  exists body,
    Demo.login {| l_email := "juan@test.com"; l_password := "miPassword123" |}
      1705312200123 Demo.one_user = (Return body, Demo.one_user) /\
    exists user token,
      body = VObj [ ("message", VStr "Login exitoso");
                    ("access_token", VJwt token);
                    ("user", VObj (rest_without "password" (User.toObject user))) ] /\
      Jwt.sub (Jwt.decode token) = User.id user /\
      Jwt.iat (Jwt.decode token) = 1705312200 /\
      Jwt.exp (Jwt.decode token) = 1705398600.
Proof.
  eexists. split; [reflexivity|].
  destruct (@login_token_claims Demo.bcrypt Demo.mac "s3cr3t" Demo.one_user Demo.one_user
              {| l_email := "juan@test.com"; l_password := "miPassword123" |}
              1705312200123 _ eq_refl)
    as [user [token [_ [B [S [_ [_ [I X]]]]]]]].
  exists user, token.
  split; [exact B|]. split; [exact S|]. split; [exact I|].
  rewrite X, I. reflexivity.
Defined.

(** ** The password field in response bodies *)

Section Redaction.
Context `{Bcrypt} `{Hs256}.
Variable jwtService : JwtService.t.
Import UsersService.

(** The rest object of a stored record has no [password] property. *)
Lemma rest_has_no_password (u : User.t) :
  has_field "password" (VObj (rest_without "password" (User.toObject u))) = false.
Proof. reflexivity. Qed.

Lemma register_omits_password (dto : RegisterDto) (salt : Salt) (tU tC : Date) (st : t) :
  exposes_password (fst (AuthService.register dto salt tU tC st)) = false.
Proof.
  destruct (register_cases dto salt tU tC st)
    as [[_ E] | [[_ [_ E]] | [_ [_ [body [B E]]]]]]; rewrite E; try reflexivity.
  cbn [fst exposes_password]. rewrite B. reflexivity.
Qed.

Lemma login_omits_password (dto : LoginDto) (now : Date) (st : t) :
  exposes_password (fst (AuthService.login jwtService dto now st)) = false.
Proof.
  rewrite login_cases.
  destruct (find _ _) as [u|]; [|reflexivity].
  destruct (User.isActive u); [|reflexivity].
  destruct (bcrypt_compare _ _); reflexivity.
Qed.

Lemma getProfile_omits_password (userId : Z) (st : t) :
  exposes_password (fst (AuthService.getProfile userId st)) = false.
Proof.
  rewrite getProfile_cases. destruct (find _ _); reflexivity.
Qed.

(** No element of the array [findAll] returns has a [password]
    property, whatever the number of accounts. *)
Lemma findAll_omits_password (st : t) :
  exposes_password (fst (UsersController.findAll st)) = false /\
  forall o, fst (UsersServiceOps.findAll st) = Return o ->
            Forall (fun user => has_field "password" (VObj user) = false) o.
Proof.
  unfold_services. cbn [fst exposes_password]. split.
  - induction (users st) as [|u l IH]; [reflexivity|].
    cbn [map]. cbn [has_field] in IH |- *.
    rewrite IH. reflexivity.
  - intros o E. injection E as <-.
    apply Forall_forall. intros user I.
    apply in_map_iff in I. destruct I as [u [<- _]]. reflexivity.
Qed.

(** [findOne] responds with the stored record as it is, [password]
    included. *)
Lemma findOne_returns_stored_record (id : Z) (st : t) (u : User.t) :
  UsersServiceOps.findById id st = (Return (Some u), st) ->
  fst (UsersController.findOne id st) = Return (VObj (User.toObject u)) /\
  prop "password" (User.toObject u) = VStr (User.password u) /\
  exposes_password (fst (UsersController.findOne id st)) = true.
Proof.
  unfold_services. intros F. injection F as F. rewrite F.
  repeat split.
Qed.

End Redaction.

(** C2. The bodies of [register], [login], [getProfile] and the list of
    all users carry no [password] property, but the claim that no
    response of the system does fails at [GET /users/:id]: after one
    registration, the request for user 1 is answered with the stored
    record, whose [password] property holds the stored hash. *)
Theorem get_user_exposes_password :
  let outs :=
    fst (Demo.run [ PostRegister Demo.juan "salt1" 1000 1000;
                    PostLogin {| l_email := "juan@test.com"; l_password := "miPassword123" |} 2000;
                    GetProfile 1;
                    GetUsers;
                    GetUser 1 ]
           UsersService.init) in
  map exposes_password outs = [false; false; false; false; true] /\
  nth_error outs 4 =
    Some (Return (VObj [ ("id", VNum 1);
                         ("username", VStr "juanperez");
                         ("email", VStr "juan@test.com");
                         ("password", VStr "salt1$miPassword123");
                         ("isActive", VBool true);
                         ("updatedAt", VDate 1000);
                         ("createdAt", VDate 1000) ])).
Proof. split; reflexivity. Qed.

(** ** How business failures reach the caller *)

Lemma find_none_existsb {A} (f : A -> bool) (l : list A) :
  find f l = None <-> existsb f l = false.
Proof.
  induction l as [|x l IH]; simpl; [tauto|].
  destruct (f x); simpl; [split; discriminate | exact IH].
Qed.

(** C9, as stated, fails: a registration with a stored email does not
    come back as a value; a NestJS [ConflictException] is thrown. *)
Lemma register_conflict_is_thrown :
  fst (Demo.register Demo.juan_again "salt2" 3000 3000 Demo.one_user)
    = Throw (ConflictException "El email ya está registrado") /\
  is_return (fst (Demo.register Demo.juan_again "salt2" 3000 3000 Demo.one_user)) = false.
Proof. split; reflexivity. Qed.

(** C9, amended. Every business failure of [register], [login] and
    [getProfile] reaches the caller as a thrown NestJS HTTP exception
    carrying a fixed message: [ConflictException] (409) for
    DuplicateEmail and DuplicateUsername, [UnauthorizedException] (401)
    for InvalidCredentials and AccountDisabled, [NotFoundException] (404)
    for AccountNotFound; each is thrown exactly under the condition
    section 4.4 gives for it, and nothing else is thrown. *)
Theorem business_failures_are_thrown `{Bcrypt} `{Hs256}
    (jwtService : JwtService.t) (st : UsersService.t)
    (rdto : RegisterDto) (salt : Salt) (tUpdated tCreated : Date)
    (ldto : LoginDto) (now : Date) (userId : Z) :
  thrown (fst (AuthService.register rdto salt tUpdated tCreated st))
    = Signals.register_signal st rdto /\
  thrown (fst (AuthService.login jwtService ldto now st))
    = Signals.login_signal st ldto /\
  thrown (fst (AuthService.getProfile userId st))
    = Signals.profile_signal st userId /\
  [ DuplicateEmail; DuplicateUsername; InvalidCredentials; AccountDisabled; AccountNotFound ]
    = [ ConflictException "El email ya está registrado";
        ConflictException "El nombre de usuario ya está en uso";
        UnauthorizedException "Credenciales inválidas";
        UnauthorizedException "Usuario desactivado. Contacte al administrador.";
        NotFoundException "Usuario no encontrado" ] /\
  map getStatus
    [ DuplicateEmail; DuplicateUsername; InvalidCredentials; AccountDisabled; AccountNotFound ]
    = [409; 409; 401; 401; 404].
Proof.
  split; [|split; [|split; [|split; reflexivity]]].
  - unfold Signals.register_signal.
    destruct (register_cases rdto salt tUpdated tCreated st)
      as [[IE E] | [[NE [IU E]] | [NE [NU [body [_ E]]]]]]; rewrite E; cbn [fst thrown].
    + apply existsb_email in IE. now rewrite IE.
    + apply existsb_username in IU. rewrite IU.
      destruct (existsb (fun u => String.eqb (User.email u) (r_email rdto)) _) eqn:X;
        [|reflexivity].
      apply existsb_email in X. contradiction.
    + destruct (existsb (fun u => String.eqb (User.email u) (r_email rdto)) _) eqn:X.
      { apply existsb_email in X. contradiction. }
      destruct (existsb (fun u => String.eqb (User.username u) (r_username rdto)) _) eqn:Y;
        [|reflexivity].
      apply existsb_username in Y. contradiction.
  - rewrite login_cases. unfold Signals.login_signal.
    destruct (find _ _) as [u|]; [|reflexivity].
    destruct (User.isActive u); [|reflexivity].
    destruct (bcrypt_compare _ _); reflexivity.
  - rewrite getProfile_cases. unfold Signals.profile_signal.
    destruct (find _ _) as [u|] eqn:F.
    + destruct (existsb _ _) eqn:X; [reflexivity|].
      apply find_none_existsb in X. congruence.
    + apply find_none_existsb in F. now rewrite F.
Qed.

(** ** Scope of the uniqueness invariant *)

(** [create] itself checks nothing: it appends whatever it is given
    under the next id. Uniqueness rests on the checks of [register]. *)
Lemma create_appends_unchecked (now : Date) (d : User.Data) (st : UsersService.t) :
  snd (UsersServiceOps.create now d st) =
    {| UsersService.users :=
         UsersService.users st ++
           [ {| User.id := UsersService.idCounter st;
                User.username := User.d_username d;
                User.email := User.d_email d;
                User.password := User.d_password d;
                User.isActive := User.d_isActive d;
                User.updatedAt := User.d_updatedAt d;
                User.createdAt := now |} ];
       UsersService.idCounter := UsersService.idCounter st + 1 |}.
Proof. reflexivity. Qed.

(** A call of [register] served to completion is its first half followed
    by its second half. *)
Lemma register_checks_then_resume `{Bcrypt}
    (dto : RegisterDto) (salt : Salt) (tU tC : Date) (st : UsersService.t) :
  AuthService.register dto salt tU tC st =
  (Overlap.register_checks dto ;;; Overlap.register_resume dto salt tU tC) st.
Proof.
  unfold AuthService.register, Overlap.register_checks, Overlap.register_resume.
  unfold_services.
  destruct (find _ (UsersService.users st)); [reflexivity|].
  destruct (find _ (map _ (UsersService.users st))); reflexivity.
Qed.

(** The runs covered by the invariant serve each request to completion.
    When two registrations with the same email overlap, so that both run
    their checks before either resumes, both pass and both accounts are
    stored. *)
Lemma overlapping_registrations_both_stored :
  let st0 := UsersService.init in
  let first := Demo.juan in
  let second := {| r_username := "juanito"; r_email := "juan@test.com";
                   r_password := "otraClave9" |} in
  Overlap.register_checks first st0 = (Return tt, st0) /\
  Overlap.register_checks second st0 = (Return tt, st0) /\
  let st1 := snd (@Overlap.register_resume Demo.bcrypt first "salt1" 1000 1000 st0) in
  let st2 := snd (@Overlap.register_resume Demo.bcrypt second "salt2" 1001 1001 st1) in
  map User.email (UsersService.users st2) = ["juan@test.com"; "juan@test.com"] /\
  map User.id (UsersService.users st2) = [1; 2].
Proof. repeat split. Qed.

(** ** The scenario of section 8 *)

Example scenario_first_registration :
  fst (Demo.register Demo.juan "salt1" 1000 1000 UsersService.init) =
    Return (VObj [ ("message", VStr "Usuario registrado exitosamente");
                   ("user", VObj [ ("id", VNum 1);
                                   ("username", VStr "juanperez");
                                   ("email", VStr "juan@test.com");
                                   ("isActive", VBool true);
                                   ("updatedAt", VDate 1000);
                                   ("createdAt", VDate 1000) ]) ]).
Proof. reflexivity. Qed.

Example scenario_same_email_conflict :
  fst (Demo.register {| r_username := "otro"; r_email := "juan@test.com";
                        r_password := "miPassword123" |} "salt2" 2000 2000 Demo.one_user)
    = Throw DuplicateEmail.
Proof. reflexivity. Qed.

Example scenario_same_username_conflict :
  fst (Demo.register {| r_username := "juanperez"; r_email := "otro@test.com";
                        r_password := "miPassword123" |} "salt2" 2000 2000 Demo.one_user)
    = Throw DuplicateUsername.
Proof. reflexivity. Qed.

Example scenario_wrong_password :
  fst (Demo.login {| l_email := "juan@test.com"; l_password := "wrong" |} 3000 Demo.one_user)
    = Throw InvalidCredentials.
Proof. reflexivity. Qed.

Example scenario_ids_of_three_registrations :
  Demo.assigned_ids
    [ PostRegister Demo.juan "salt1" 1000 1000;
      PostRegister Demo.juan_again "salt2" 2000 2000;
      PostRegister Demo.maria "salt3" 3000 3000;
      GetUsers;
      PostRegister {| r_username := "pedro"; r_email := "pedro@test.com";
                      r_password := "miPassword123" |} "salt4" 4000 4000 ]
    UsersService.init = [1; 2; 3].
Proof. reflexivity. Qed.

(** * Further properties of the services *)

(** ** More on lookups *)

Lemma find_snoc {A} (f : A -> bool) (l : list A) (x : A) :
  find f (l ++ [x]) =
  match find f l with
  | Some y => Some y
  | None => if f x then Some x else None
  end.
Proof.
  induction l as [|y l IH]; simpl.
  - destruct (f x); reflexivity.
  - destruct (f y); [reflexivity | exact IH].
Qed.

Lemma find_id_none (l : list User.t) (i : Z) :
  find (fun user => Z.eqb (User.id user) i) l = None <-> ~ In i (map User.id l).
Proof.
  induction l as [|u l IH]; simpl.
  - tauto.
  - destruct (Z.eqb_spec (User.id u) i) as [E|E].
    + split; [discriminate | intros N; exfalso; apply N; now left].
    + rewrite IH. tauto.
Qed.

Lemma find_id_unique (l : list User.t) (u : User.t) :
  NoDup (map User.id l) -> In u l ->
  find (fun user => Z.eqb (User.id user) (User.id u)) l = Some u.
Proof.
  induction l as [|v l IH]; simpl; intros ND I.
  - contradiction.
  - inversion ND as [|? ? NI ND']; subst.
    destruct I as [->|I].
    + now rewrite Z.eqb_refl.
    + destruct (Z.eqb_spec (User.id v) (User.id u)) as [E|E].
      * exfalso. apply NI. rewrite E. now apply in_map.
      * now apply IH.
Qed.

(** The successful path of [register], with the stored account named. *)
Lemma register_fresh `{Bcrypt}
    (st : UsersService.t) (dto : RegisterDto) (salt : Salt) (tU tC : Date) :
  ~ In (r_email dto) (map User.email (UsersService.users st)) ->
  ~ In (r_username dto) (map User.username (UsersService.users st)) ->
  AuthService.register dto salt tU tC st =
    (Return (VObj [ ("message", VStr "Usuario registrado exitosamente");
                    ("user", VObj (public
                                     (registered_account (UsersService.idCounter st)
                                        dto salt tU tC))) ]),
     {| UsersService.users :=
          UsersService.users st ++
            [registered_account (UsersService.idCounter st) dto salt tU tC];
        UsersService.idCounter := UsersService.idCounter st + 1 |}).
Proof.
  intros NE NU.
  destruct (register_cases dto salt tU tC st)
    as [[IE _] | [[_ [IU _]] | [_ [_ [body [B E]]]]]]; try contradiction.
  rewrite E, B. reflexivity.
Qed.

(** ** Registration *)

(** X1. A registration whose email and username are both absent from the
    store succeeds: it appends one account at the end of the array, with
    the current counter as id, the request's username and email, the
    bcrypt hash (cost 10) of the password, [isActive] true and the two
    timestamps; the counter advances by one; the response shows that
    account without its password. *)
Theorem register_new_account `{Bcrypt}
    (st : UsersService.t) (dto : RegisterDto) (salt : Salt) (tUpdated tCreated : Date) :
  ~ In (r_email dto) (map User.email (UsersService.users st)) ->
  ~ In (r_username dto) (map User.username (UsersService.users st)) ->
  let account := registered_account (UsersService.idCounter st) dto salt tUpdated tCreated in
  AuthService.register dto salt tUpdated tCreated st =
    (Return (VObj [ ("message", VStr "Usuario registrado exitosamente");
                    ("user", VObj [ ("id", VNum (UsersService.idCounter st));
                                    ("username", VStr (r_username dto));
                                    ("email", VStr (r_email dto));
                                    ("isActive", VBool true);
                                    ("updatedAt", VDate tUpdated);
                                    ("createdAt", VDate tCreated) ]) ]),
     {| UsersService.users := UsersService.users st ++ [account];
        UsersService.idCounter := UsersService.idCounter st + 1 |}) /\
  User.password account = bcrypt_hash (r_password dto) 10 salt /\
  User.isActive account = true.
Proof.
  intros NE NU account.
  rewrite (register_fresh st dto salt tUpdated tCreated NE NU).
  repeat split.
Qed.

Lemma register_new_account_witness :
  Demo.register Demo.maria "salt3" 3000 3001 Demo.one_user =
    (Return (VObj [ ("message", VStr "Usuario registrado exitosamente");
                    ("user", VObj [ ("id", VNum 2);
                                    ("username", VStr "maria123");
                                    ("email", VStr "maria@test.com");
                                    ("isActive", VBool true);
                                    ("updatedAt", VDate 3000);
                                    ("createdAt", VDate 3001) ]) ]),
     {| UsersService.users :=
          UsersService.users Demo.one_user ++
            [@registered_account Demo.bcrypt 2 Demo.maria "salt3" 3000 3001];
        UsersService.idCounter := 3 |}).
Proof.
  refine (proj1 (@register_new_account Demo.bcrypt Demo.one_user Demo.maria
                   "salt3" 3000 3001 _ _)).
  - vm_compute. intros [E|[]]. discriminate E.
  - vm_compute. intros [E|[]]. discriminate E.
Defined.

(** X2. A registration whose email is new but whose username is already
    stored throws the username conflict (409) and leaves the store
    untouched. *)
Theorem register_username_conflict `{Bcrypt}
    (st : UsersService.t) (dto : RegisterDto) (salt : Salt) (tUpdated tCreated : Date) :
  ~ In (r_email dto) (map User.email (UsersService.users st)) ->
  In (r_username dto) (map User.username (UsersService.users st)) ->
  AuthService.register dto salt tUpdated tCreated st
    = (Throw (ConflictException "El nombre de usuario ya está en uso"), st).
Proof.
  intros NE IU.
  destruct (register_cases dto salt tUpdated tCreated st)
    as [[IE _] | [[_ [_ E]] | [_ [NU _]]]]; try contradiction.
  exact E.
Qed.

Lemma register_username_conflict_witness :
  Demo.register {| r_username := "juanperez"; r_email := "otro@test.com";
                   r_password := "miPassword123" |} "salt2" 2000 2000 Demo.one_user
    = (Throw (ConflictException "El nombre de usuario ya está en uso"), Demo.one_user).
Proof.
  apply (@register_username_conflict Demo.bcrypt Demo.one_user
           {| r_username := "juanperez"; r_email := "otro@test.com";
              r_password := "miPassword123" |} "salt2" 2000 2000).
  - vm_compute. intros [E|[]]. discriminate E.
  - vm_compute. left. reflexivity.
Defined.

(** X3. Once a registration has succeeded, any later registration with
    the same email throws the email conflict, and any later registration
    with the same username and an email that is not stored throws the
    username conflict, whatever the password; both leave the store as
    the first registration left it. *)
Theorem register_again_conflicts `{Bcrypt}
    (st : UsersService.t) (dto : RegisterDto) (salt : Salt) (tUpdated tCreated : Date) :
  ~ In (r_email dto) (map User.email (UsersService.users st)) ->
  ~ In (r_username dto) (map User.username (UsersService.users st)) ->
  let st1 := snd (AuthService.register dto salt tUpdated tCreated st) in
  (forall dto' salt' tU' tC',
      r_email dto' = r_email dto ->
      AuthService.register dto' salt' tU' tC' st1 = (Throw DuplicateEmail, st1)) /\
  (forall dto' salt' tU' tC',
      r_username dto' = r_username dto ->
      r_email dto' <> r_email dto ->
      ~ In (r_email dto') (map User.email (UsersService.users st)) ->
      AuthService.register dto' salt' tU' tC' st1 = (Throw DuplicateUsername, st1)).
Proof.
  intros NE NU st1.
  assert (E1 : st1 = {| UsersService.users :=
                          UsersService.users st ++
                            [registered_account (UsersService.idCounter st)
                               dto salt tUpdated tCreated];
                        UsersService.idCounter := UsersService.idCounter st + 1 |}).
  { subst st1. now rewrite (register_fresh st dto salt tUpdated tCreated NE NU). }
  split.
  - intros dto' salt' tU' tC' EE.
    destruct (register_cases dto' salt' tU' tC' st1)
      as [[_ E] | [[N _] | [N _]]]; [exact E | |];
      exfalso; apply N; rewrite E1; cbn [UsersService.users];
      rewrite map_app, in_app_iff; right; left; now rewrite EE.
  - intros dto' salt' tU' tC' EU DE NE'.
    destruct (register_cases dto' salt' tU' tC' st1)
      as [[I _] | [[_ [_ E]] | [_ [N _]]]]; [ | exact E | ].
    + exfalso. rewrite E1 in I. cbn [UsersService.users] in I.
      rewrite map_app, in_app_iff in I. destruct I as [I|[I|[]]].
      * contradiction.
      * apply DE. now rewrite <- I.
    + exfalso. apply N. rewrite E1. cbn [UsersService.users].
      rewrite map_app, in_app_iff. right. left. now rewrite EU.
Qed.

Lemma register_again_conflicts_witness :
  Demo.register Demo.juan_again "salt2" 2000 2000 Demo.one_user
    = (Throw DuplicateEmail, Demo.one_user) /\
  Demo.register {| r_username := "juanperez"; r_email := "otro@test.com";
                   r_password := "x" |} "salt2" 2000 2000 Demo.one_user
    = (Throw DuplicateUsername, Demo.one_user).
Proof.
  assert (NE : ~ In (r_email Demo.juan) (map User.email (UsersService.users UsersService.init)))
    by (intros []).
  assert (NU : ~ In (r_username Demo.juan)
                 (map User.username (UsersService.users UsersService.init)))
    by (intros []).
  destruct (@register_again_conflicts Demo.bcrypt UsersService.init Demo.juan
              "salt1" 1000 1000 NE NU) as [A B].
  split.
  - exact (A Demo.juan_again "salt2" 2000 2000 eq_refl).
  - refine (B {| r_username := "juanperez"; r_email := "otro@test.com"; r_password := "x" |}
              "salt2" 2000 2000 eq_refl _ _).
    + discriminate.
    + intros [].
Defined.

(** ** Registration followed by login *)



(** ** Login followed by the profile lookup *)

(** X5. In a store whose ids are pairwise distinct, the subject of a
    token issued by a successful login leads [getProfile] back to the
    account that logged in: the profile body is the [user] object of the
    login response. *)
Theorem login_then_getProfile `{Bcrypt} `{Hs256}
    (jwtService : JwtService.t) (st st' : UsersService.t) (dto : LoginDto)
    (now : Date) (body : value) :
  NoDup (map User.id (UsersService.users st)) ->
  AuthService.login jwtService dto now st = (Return body, st') ->
  exists (token : Jwt.Token) (user : Object),
    body = VObj [ ("message", VStr "Login exitoso");
                  ("access_token", VJwt token);
                  ("user", VObj user) ] /\
    AuthService.getProfile (Jwt.sub (Jwt.decode token)) st' = (Return (VObj user), st').
Proof.
  intros ND. rewrite login_cases.
  destruct (find _ (UsersService.users st)) as [u|] eqn:F; [|discriminate].
  destruct (User.isActive u); [|discriminate].
  destruct (bcrypt_compare _ _); [|discriminate].
  intros E. injection E as <- <-.
  eexists. eexists. split; [reflexivity|].
  rewrite getProfile_cases. cbn [Jwt.decode JwtService.sign Jwt.payload Jwt.sub JwtService.p_sub].
  apply find_email_some in F. destruct F as [I _].
  now rewrite (find_id_unique _ _ ND I).
Qed.

Lemma login_then_getProfile_witness :
  exists token user,
    fst (Demo.login {| l_email := "juan@test.com"; l_password := "miPassword123" |}
           2000 Demo.one_user)
      = Return (VObj [ ("message", VStr "Login exitoso");
                       ("access_token", VJwt token);
                       ("user", VObj user) ]) /\
    AuthService.getProfile (Jwt.sub (Jwt.decode token)) Demo.one_user
      = (Return (VObj user), Demo.one_user).
Proof.
  assert (ND : NoDup (map User.id (UsersService.users Demo.one_user))).
  { vm_compute. constructor; [intros [] | constructor]. }
  destruct (@login_then_getProfile Demo.bcrypt Demo.mac Demo.jwtService
              Demo.one_user Demo.one_user
              {| l_email := "juan@test.com"; l_password := "miPassword123" |}
              2000 _ ND eq_refl) as [token [user [B G]]].
  exists token, user. split; [|exact G].
  rewrite <- B. reflexivity.
Defined.

(** ** The two lookups by id *)

(** X6. For an id no stored account has, the two lookups differ:
    [GET /users/:id] ([findOne]) returns [undefined] without throwing,
    [getProfile] throws NotFoundException (404). Neither changes the
    store. *)
Theorem missing_id_lookups (st : UsersService.t) (id : Z) :
  ~ In id (map User.id (UsersService.users st)) ->
  UsersController.findOne id st = (Return VUndefined, st) /\
  AuthService.getProfile id st = (Throw (NotFoundException "Usuario no encontrado"), st).
Proof.
  intros NI. apply find_id_none in NI. split.
  - unfold_services. now rewrite NI.
  - rewrite getProfile_cases. now rewrite NI.
Qed.

Lemma missing_id_lookups_witness :
  UsersController.findOne 7 Demo.one_user = (Return VUndefined, Demo.one_user) /\
  AuthService.getProfile 7 Demo.one_user
    = (Throw (NotFoundException "Usuario no encontrado"), Demo.one_user).
Proof.
  apply (missing_id_lookups Demo.one_user 7).
  vm_compute. intros [E|[]]. discriminate E.
Defined.

(** X7. For the id of a stored account (ids pairwise distinct), both
    lookups return, and the body of [getProfile] is the body of
    [findOne] with the [password] property removed and every other
    property kept in place. *)
Theorem stored_id_lookups (st : UsersService.t) (u : User.t) :
  NoDup (map User.id (UsersService.users st)) ->
  In u (UsersService.users st) ->
  exists full : Object,
    UsersController.findOne (User.id u) st = (Return (VObj full), st) /\
    AuthService.getProfile (User.id u) st = (Return (VObj (rest_without "password" full)), st) /\
    prop "password" full = VStr (User.password u) /\
    prop "password" (rest_without "password" full) = VUndefined /\
    map fst full = ["id"; "username"; "email"; "password"; "isActive"; "updatedAt"; "createdAt"] /\
    map fst (rest_without "password" full)
      = ["id"; "username"; "email"; "isActive"; "updatedAt"; "createdAt"].
Proof.
  intros ND I. exists (User.toObject u).
  pose proof (find_id_unique _ _ ND I) as F.
  split; [|split].
  - unfold_services. now rewrite F.
  - rewrite getProfile_cases. now rewrite F.
  - repeat split.
Qed.

Lemma stored_id_lookups_witness :
  exists full : Object,
    UsersController.findOne 1 Demo.one_user = (Return (VObj full), Demo.one_user) /\
    AuthService.getProfile 1 Demo.one_user
      = (Return (VObj (rest_without "password" full)), Demo.one_user) /\
    prop "password" full = VStr "salt1$miPassword123".
Proof.
  assert (ND : NoDup (map User.id (UsersService.users Demo.one_user))).
  { vm_compute. constructor; [intros [] | constructor]. }
  assert (I : In (@registered_account Demo.bcrypt 1 Demo.juan "salt1" 1000 1000)
                 (UsersService.users Demo.one_user)).
  { vm_compute. left. reflexivity. }
  destruct (stored_id_lookups Demo.one_user _ ND I) as [full [A [B [C _]]]].
  exists full. split; [exact A|]. split; [exact B | exact C].
Defined.

(** ** What runs of requests keep *)

Section RunInvariants.
Context `{Bcrypt} `{Hs256}.
Variable jwtService : JwtService.t.
Import UsersService.

(** A request either is a registration that appends the account it
    built, or leaves the store as it was. *)
Lemma handle_effect (req : Request) (st : t) :
  (exists dto salt tU tC,
      req = PostRegister dto salt tU tC /\
      snd (App.handle jwtService req st) =
        {| users := users st ++ [registered_account (idCounter st) dto salt tU tC];
           idCounter := idCounter st + 1 |}) \/
  snd (App.handle jwtService req st) = st.
Proof.
  destruct req as [dto salt tU tC | dto now | userId | | id]; cbn [App.handle].
  - destruct (register_cases dto salt tU tC st)
      as [[_ E] | [[_ [_ E]] | [NE [NU _]]]].
    + right. now rewrite E.
    + right. now rewrite E.
    + left. exists dto, salt, tU, tC. split; [reflexivity|].
      now rewrite (register_fresh st dto salt tU tC NE NU).
  - right. apply login_store.
  - right. apply getProfile_store.
  - right. reflexivity.
  - right. reflexivity.
Qed.

Lemma run_outcomes_cons (req : Request) (rest : list Request) (st : t) :
  fst (App.run jwtService (req :: rest) st) =
  fst (App.handle jwtService req st)
    :: fst (App.run jwtService rest (snd (App.handle jwtService req st))).
Proof.
  cbn [App.run].
  destruct (App.handle jwtService req st) as [out st1].
  destruct (App.run jwtService rest st1) as [outs st2] eqn:R.
  cbn [fst snd]. now rewrite R.
Qed.

(** A property of stores kept by every request is kept by every run. *)
Lemma run_keeps (P : t -> Prop) :
  (forall req st, P st -> P (snd (App.handle jwtService req st))) ->
  forall reqs st, P st -> P (snd (App.run jwtService reqs st)).
Proof.
  intros Step reqs. induction reqs as [|req rest IH]; intros st P0.
  - exact P0.
  - rewrite run_cons. apply IH. now apply Step.
Qed.

Lemma handle_consecutive (req : Request) (st : t) :
  consecutive_ids st -> consecutive_ids (snd (App.handle jwtService req st)).
Proof.
  intros [I C].
  destruct (handle_effect req st) as [[dto [salt [tU [tC [_ E]]]]] | E]; rewrite E.
  - unfold consecutive_ids. cbn [users idCounter].
    rewrite map_app, length_app, I, C. cbn [List.length map registered_account User.id].
    rewrite Nat.add_1_r, seq_S, map_app. cbn [map]. split.
    + do 2 f_equal. lia.
    + lia.
  - split; assumption.
Qed.

Lemma handle_active (req : Request) (st : t) :
  all_active st -> all_active (snd (App.handle jwtService req st)).
Proof.
  intros A.
  destruct (handle_effect req st) as [[dto [salt [tU [tC [_ E]]]]] | E]; rewrite E.
  - unfold all_active in *. cbn [users].
    apply Forall_app. split; [exact A|]. constructor; [reflexivity | constructor].
  - exact A.
Qed.

Lemma handle_hashed (req : Request) (st : t) :
  all_hashed st -> all_hashed (snd (App.handle jwtService req st)).
Proof.
  intros A.
  destruct (handle_effect req st) as [[dto [salt [tU [tC [_ E]]]]] | E]; rewrite E.
  - unfold all_hashed in *. cbn [users].
    apply Forall_app. split; [exact A|]. constructor; [|constructor].
    exists (r_password dto), salt. reflexivity.
  - exact A.
Qed.

(** With every account active, no request is answered AccountDisabled. *)
Lemma handle_not_disabled (req : Request) (st : t) :
  all_active st ->
  thrown (fst (App.handle jwtService req st)) <> Some AccountDisabled.
Proof.
  intros A.
  destruct req as [dto salt tU tC | dto now | userId | | id]; cbn [App.handle].
  - destruct (register_cases dto salt tU tC st)
      as [[_ E] | [[_ [_ E]] | [_ [_ [body [_ E]]]]]]; rewrite E; discriminate.
  - rewrite login_cases.
    destruct (find _ (users st)) as [u|] eqn:F; [|discriminate].
    apply find_email_some in F. destruct F as [I _].
    unfold all_active in A. rewrite Forall_forall in A. rewrite (A u I).
    destruct (bcrypt_compare _ _); discriminate.
  - rewrite getProfile_cases. destruct (find _ _); discriminate.
  - discriminate.
  - discriminate.
Qed.

Lemma run_not_disabled (reqs : list Request) :
  forall st, all_active st ->
  Forall (fun out => thrown out <> Some AccountDisabled) (fst (App.run jwtService reqs st)).
Proof.
  induction reqs as [|req rest IH]; intros st A.
  - constructor.
  - rewrite run_outcomes_cons. constructor.
    + now apply handle_not_disabled.
    + apply IH. now apply handle_active.
Qed.

Lemma run_appends (reqs : list Request) :
  forall st, exists added : list User.t,
    users (snd (App.run jwtService reqs st)) = (users st ++ added)%list /\
    idCounter (snd (App.run jwtService reqs st)) = idCounter st + Z.of_nat (List.length added).
Proof.
  induction reqs as [|req rest IH]; intros st.
  - exists []. cbn. rewrite app_nil_r. split; [reflexivity | lia].
  - rewrite run_cons.
    destruct (IH (snd (App.handle jwtService req st))) as [added [U C]].
    destruct (handle_effect req st) as [[dto [salt [tU [tC [_ E]]]]] | E];
      rewrite E in U, C |- *.
    + cbn [users idCounter] in U, C.
      exists (registered_account (idCounter st) dto salt tU tC :: added).
      rewrite U, C, <- app_assoc. cbn [List.length app]. split; [reflexivity | lia].
    + exists added. split; assumption.
Qed.

End RunInvariants.

Lemma NoDup_of_nat_seq (s n : nat) : NoDup (map Z.of_nat (seq s n)).
Proof.
  revert s. induction n as [|n IH]; intros s; cbn [seq map].
  - constructor.
  - constructor; [|apply IH].
    rewrite in_map_iff. intros [k [E I]]. apply in_seq in I. lia.
Qed.

(** X8. In every store reached from the empty store, the stored accounts
    carry the ids 1, 2, ..., n in array order and the counter is n + 1:
    the k-th account created is the k-th element and has id k, and
    requests that fail or only read consume no id. *)
Theorem run_ids_consecutive `{Bcrypt} `{Hs256}
    (jwtService : JwtService.t) (reqs : list Request) :
  let st := snd (App.run jwtService reqs UsersService.init) in
  map User.id (UsersService.users st)
    = map Z.of_nat (seq 1 (List.length (UsersService.users st))) /\
  UsersService.idCounter st = Z.of_nat (List.length (UsersService.users st)) + 1 /\
  NoDup (map User.id (UsersService.users st)).
Proof.
  intros st.
  assert (C : consecutive_ids st).
  { apply (run_keeps jwtService consecutive_ids (handle_consecutive jwtService)).
    split; reflexivity. }
  destruct C as [I C]. split; [exact I|]. split; [exact C|].
  rewrite I. apply NoDup_of_nat_seq.
Qed.

(** X9. No exposed operation deactivates an account: in every store
    reached from the empty store all accounts are active, and no request
    of any run from the empty store is answered AccountDisabled. *)
Theorem run_never_disabled `{Bcrypt} `{Hs256}
    (jwtService : JwtService.t) (reqs : list Request) :
  Forall (fun u => User.isActive u = true)
         (UsersService.users (snd (App.run jwtService reqs UsersService.init))) /\
  Forall (fun out => thrown out <> Some AccountDisabled)
         (fst (App.run jwtService reqs UsersService.init)).
Proof.
  split.
  - apply (run_keeps jwtService all_active (handle_active jwtService)). constructor.
  - apply run_not_disabled. constructor.
Qed.

Lemma run_accounts_from_requests `{Bcrypt} `{Hs256}
    (jwtService : JwtService.t) (reqs : list Request) :
  forall st u,
    In u (UsersService.users (snd (App.run jwtService reqs st))) ->
    In u (UsersService.users st) \/
    exists dto salt tUpdated tCreated,
      In (PostRegister dto salt tUpdated tCreated) reqs /\
      u = registered_account (User.id u) dto salt tUpdated tCreated.
Proof.
  induction reqs as [|req rest IH]; intros st u I.
  - left. exact I.
  - rewrite run_cons in I.
    destruct (IH _ _ I) as [J | [dto [salt [tU [tC [J E]]]]]].
    + destruct (handle_effect jwtService req st)
        as [[dto [salt [tU [tC [R E]]]]] | E]; rewrite E in J.
      * cbn [UsersService.users] in J. apply in_app_iff in J.
        destruct J as [J | [J | []]]; [left; exact J|].
        right. exists dto, salt, tU, tC. split; [left; now rewrite R|].
        now rewrite <- J.
      * left. exact J.
    + right. exists dto, salt, tU, tC. split; [right; exact J | exact E].
Qed.

(** X10. Every account stored by a run from the empty store was built
    by one of the run's registration requests: its username and email
    are that request's, it is active, and its password is
    [bcrypt.hash] applied at cost 10, with the salt of that call, to the
    password of that same request: what is stored is what the hasher
    returned for that password. *)
Theorem run_passwords_hashed `{Bcrypt} `{Hs256}
    (jwtService : JwtService.t) (reqs : list Request) :
  Forall (fun u =>
            exists dto salt tUpdated tCreated,
              In (PostRegister dto salt tUpdated tCreated) reqs /\
              User.username u = r_username dto /\
              User.email u = r_email dto /\
              User.isActive u = true /\
              User.password u = bcrypt_hash (r_password dto) 10 salt)
         (UsersService.users (snd (App.run jwtService reqs UsersService.init))).
Proof.
  apply Forall_forall. intros u I.
  destruct (run_accounts_from_requests jwtService reqs _ _ I)
    as [[] | [dto [salt [tU [tC [J E]]]]]].
  exists dto, salt, tU, tC. split; [exact J|].
  rewrite E. repeat split.
Qed.

(** X11. The store is append-only: from any store, a run of requests
    leaves every account that was stored in place and unmodified, adds
    new accounts only at the end, and advances the counter by exactly
    the number of accounts added. *)
Theorem run_append_only `{Bcrypt} `{Hs256}
    (jwtService : JwtService.t) (reqs : list Request) (st : UsersService.t) :
  exists added : list User.t,
    UsersService.users (snd (App.run jwtService reqs st))
      = (UsersService.users st ++ added)%list /\
    UsersService.idCounter (snd (App.run jwtService reqs st))
      = UsersService.idCounter st + Z.of_nat (List.length added).
Proof. apply run_appends. Qed.

(** ** Profiles in stores reached from the empty store *)

Lemma consecutive_lookup (st : UsersService.t) (userId : Z) :
  consecutive_ids st ->
  (1 <= userId <= Z.of_nat (List.length (UsersService.users st)) ->
   exists u,
     nth_error (UsersService.users st) (Z.to_nat (userId - 1)) = Some u /\
     User.id u = userId /\
     find (fun user => Z.eqb (User.id user) userId) (UsersService.users st) = Some u) /\
  (~ (1 <= userId <= Z.of_nat (List.length (UsersService.users st))) ->
   find (fun user => Z.eqb (User.id user) userId) (UsersService.users st) = None).
Proof.
  intros [I _]. split.
  - intros R.
    set (i := Z.to_nat (userId - 1)).
    assert (L : (i < List.length (UsersService.users st))%nat) by lia.
    destruct (nth_error (UsersService.users st) i) as [u|] eqn:N;
      [|apply nth_error_None in N; lia].
    exists u. split; [reflexivity|].
    assert (E : User.id u = userId).
    { pose proof (map_nth_error User.id _ _ N) as M.
      rewrite I in M.
      rewrite (nth_error_nth' _ 0) in M by (rewrite length_map, length_seq; exact L).
      rewrite (map_nth Z.of_nat _ 0%nat), seq_nth in M by exact L.
      injection M as M. lia. }
    split; [exact E|].
    rewrite <- E. apply find_id_unique.
    + rewrite I. apply NoDup_of_nat_seq.
    + eapply nth_error_In. exact N.
  - intros R. apply find_id_none. rewrite I.
    rewrite in_map_iff. intros [k [E K]]. apply in_seq in K. lia.
Qed.

(** X12. In a store reached from the empty store holding n accounts,
    [getProfile] returns exactly for the ids 1 to n: for such an id it
    shows the account at position id - 1 of the array, without its
    password; for every other id (0, negative, above n) it throws
    AccountNotFound. *)
Theorem run_profile_by_id `{Bcrypt} `{Hs256}
    (jwtService : JwtService.t) (reqs : list Request) :
  let st := snd (App.run jwtService reqs UsersService.init) in
  let n := Z.of_nat (List.length (UsersService.users st)) in
  (forall userId, 1 <= userId <= n ->
     exists u,
       nth_error (UsersService.users st) (Z.to_nat (userId - 1)) = Some u /\
       User.id u = userId /\
       AuthService.getProfile userId st = (Return (VObj (public u)), st)) /\
  (forall userId, ~ (1 <= userId <= n) ->
     AuthService.getProfile userId st = (Throw AccountNotFound, st)).
Proof.
  intros st n.
  assert (C : consecutive_ids st).
  { apply (run_keeps jwtService consecutive_ids (handle_consecutive jwtService)).
    split; reflexivity. }
  split; intros userId R; rewrite getProfile_cases;
    destruct (consecutive_lookup st userId C) as [A B].
  - destruct (A R) as [u [N [E F]]]. exists u. now rewrite F.
  - now rewrite (B R).
Qed.

Lemma run_profile_by_id_witness :
  let st := snd (Demo.run [ PostRegister Demo.juan "salt1" 1000 1000;
                            PostRegister Demo.juan_again "salt2" 2000 2000;
                            PostRegister Demo.maria "salt3" 3000 3000 ]
                   UsersService.init) in
  (exists u, User.username u = "maria123" /\
             AuthService.getProfile 2 st = (Return (VObj (public u)), st)) /\
  AuthService.getProfile 3 st = (Throw AccountNotFound, st) /\
  AuthService.getProfile 0 st = (Throw AccountNotFound, st).
Proof.
  intros st.
  destruct (@run_profile_by_id Demo.bcrypt Demo.mac Demo.jwtService
              [ PostRegister Demo.juan "salt1" 1000 1000;
                PostRegister Demo.juan_again "salt2" 2000 2000;
                PostRegister Demo.maria "salt3" 3000 3000 ]) as [A B].
  split; [|split].
  - destruct (A 2) as [u [N [_ G]]]; [vm_compute; split; discriminate|].
    exists u. split; [|exact G].
    vm_compute in N. injection N as <-. reflexivity.
  - apply (B 3). vm_compute. intros [_ L]. apply L. reflexivity.
  - apply (B 0). vm_compute. intros [L _]. apply L. reflexivity.
Defined.

(** ** The list of all users *)

(** X13. [GET /users] returns one object per stored account, in array
    order, for any number of accounts; each object shows exactly the id,
    username, email, active flag and the two timestamps of its account,
    and none has a [password] property. The store is not changed. *)
Theorem findAll_shows_every_account (st : UsersService.t) :
  UsersController.findAll st =
    (Return (VArr (map (fun u => VObj [ ("id", VNum (User.id u));
                                        ("username", VStr (User.username u));
                                        ("email", VStr (User.email u));
                                        ("isActive", VBool (User.isActive u));
                                        ("updatedAt", VDate (User.updatedAt u));
                                        ("createdAt", VDate (User.createdAt u)) ])
                       (UsersService.users st))), st) /\
  (forall items, fst (UsersController.findAll st) = Return (VArr items) ->
     List.length items = List.length (UsersService.users st) /\
     Forall (fun item => has_field "password" item = false) items).
Proof.
  assert (E : UsersController.findAll st =
    (Return (VArr (map (fun u => VObj [ ("id", VNum (User.id u));
                                        ("username", VStr (User.username u));
                                        ("email", VStr (User.email u));
                                        ("isActive", VBool (User.isActive u));
                                        ("updatedAt", VDate (User.updatedAt u));
                                        ("createdAt", VDate (User.createdAt u)) ])
                       (UsersService.users st))), st)).
  { unfold_services. rewrite map_map. reflexivity. }
  split; [exact E|].
  intros items R. rewrite E in R. injection R as <-.
  split; [apply length_map|].
  apply Forall_forall. intros item I.
  apply in_map_iff in I. destruct I as [u [<- _]]. reflexivity.
Qed.

Lemma findAll_shows_every_account_witness :
  fst (UsersController.findAll Demo.one_user) =
    Return (VArr [ VObj [ ("id", VNum 1);
                          ("username", VStr "juanperez");
                          ("email", VStr "juan@test.com");
                          ("isActive", VBool true);
                          ("updatedAt", VDate 1000);
                          ("createdAt", VDate 1000) ] ]) /\
  List.length (UsersService.users Demo.one_user) = 1%nat.
Proof.
  pose proof (proj1 (findAll_shows_every_account Demo.one_user)) as E.
  split; [now rewrite E | reflexivity].
Defined.

(** X14. For every store and every input, the bodies returned by
    [register], [login] and [getProfile] carry no [password] property at
    any depth, on success and on failure alike. *)
Theorem auth_responses_omit_password `{Bcrypt} `{Hs256}
    (jwtService : JwtService.t) (st : UsersService.t)
    (rdto : RegisterDto) (salt : Salt) (tUpdated tCreated : Date)
    (ldto : LoginDto) (now : Date) (userId : Z) :
  exposes_password (fst (AuthService.register rdto salt tUpdated tCreated st)) = false /\
  exposes_password (fst (AuthService.login jwtService ldto now st)) = false /\
  exposes_password (fst (AuthService.getProfile userId st)) = false.
Proof.
  split; [|split].
  - apply register_omits_password.
  - apply login_omits_password.
  - apply getProfile_omits_password.
Qed.

(** ** Registrations that overlap at the [await] *)

Lemma register_checks_pass (st : UsersService.t) (dto : RegisterDto) :
  ~ In (r_email dto) (map User.email (UsersService.users st)) ->
  ~ In (r_username dto) (map User.username (UsersService.users st)) ->
  Overlap.register_checks dto st = (Return tt, st).
Proof.
  intros NE NU. unfold Overlap.register_checks. unfold_services.
  apply find_email_none in NE. rewrite NE.
  apply find_username_scan in NU. rewrite NU. reflexivity.
Qed.

(** X15. The duplicate checks of [register] run before its [await] and
    the insertion after it, with nothing tying the two together: when
    two registrations with the same email, both new to the store, have
    each run their checks before either resumes, both checks pass, both
    resumptions return success, and the store ends with the two accounts
    appended under consecutive ids and the same email, so emails are no
    longer unique. *)
Theorem overlapping_registrations_duplicate `{Bcrypt}
    (st : UsersService.t) (dto1 dto2 : RegisterDto) (salt1 salt2 : Salt)
    (tU1 tC1 tU2 tC2 : Date) :
  ~ In (r_email dto1) (map User.email (UsersService.users st)) ->
  ~ In (r_username dto1) (map User.username (UsersService.users st)) ->
  ~ In (r_username dto2) (map User.username (UsersService.users st)) ->
  r_email dto2 = r_email dto1 ->
  let st1 := snd (Overlap.register_resume dto1 salt1 tU1 tC1 st) in
  let st2 := snd (Overlap.register_resume dto2 salt2 tU2 tC2 st1) in
  Overlap.register_checks dto1 st = (Return tt, st) /\
  Overlap.register_checks dto2 st = (Return tt, st) /\
  is_return (fst (Overlap.register_resume dto1 salt1 tU1 tC1 st)) = true /\
  is_return (fst (Overlap.register_resume dto2 salt2 tU2 tC2 st1)) = true /\
  UsersService.users st2 =
    (UsersService.users st ++
       [ registered_account (UsersService.idCounter st) dto1 salt1 tU1 tC1;
         registered_account (UsersService.idCounter st + 1) dto2 salt2 tU2 tC2 ])%list /\
  ~ unique_emails st2.
Proof.
  intros NE1 NU1 NU2 EE st1 st2.
  split; [now apply register_checks_pass|].
  split; [apply register_checks_pass; [now rewrite EE | exact NU2]|].
  split; [reflexivity|]. split; [reflexivity|].
  assert (U : UsersService.users st2 =
    (UsersService.users st ++
       [ registered_account (UsersService.idCounter st) dto1 salt1 tU1 tC1;
         registered_account (UsersService.idCounter st + 1) dto2 salt2 tU2 tC2 ])%list).
  { subst st2 st1. cbn. rewrite <- app_assoc. reflexivity. }
  split; [exact U|].
  unfold unique_emails. rewrite U, map_app. cbn [map registered_account User.email].
  rewrite EE. intros ND.
  apply NoDup_remove_2 in ND. apply ND.
  rewrite in_app_iff. right. left. reflexivity.
Qed.

Lemma overlapping_registrations_duplicate_witness :
  let second := {| r_username := "juanito"; r_email := "juan@test.com";
                   r_password := "otraClave9" |} in
  let st1 := snd (@Overlap.register_resume Demo.bcrypt Demo.juan "salt1" 1000 1000
                    UsersService.init) in
  let st2 := snd (@Overlap.register_resume Demo.bcrypt second "salt2" 1001 1001 st1) in
  Overlap.register_checks second UsersService.init = (Return tt, UsersService.init) /\
  ~ unique_emails st2.
Proof.
  intros second st1 st2.
  destruct (@overlapping_registrations_duplicate Demo.bcrypt UsersService.init
              Demo.juan second "salt1" "salt2" 1000 1000 1001 1001)
    as [_ [C [_ [_ [_ N]]]]]; try (intros []); try reflexivity.
  split; [exact C | exact N].
Defined.

(** ** The empty store *)

(** X16. On the store as constructed ([users = []], [idCounter = 1]):
    every login throws InvalidCredentials, every profile lookup throws
    AccountNotFound, the user list is the empty array, [GET /users/:id]
    returns [undefined] for every id, and every registration succeeds
    and creates the account with id 1. *)
Theorem empty_store_behaviour `{Bcrypt} `{Hs256}
    (jwtService : JwtService.t) (ldto : LoginDto) (now : Date) (id : Z)
    (rdto : RegisterDto) (salt : Salt) (tUpdated tCreated : Date) :
  AuthService.login jwtService ldto now UsersService.init
    = (Throw InvalidCredentials, UsersService.init) /\
  AuthService.getProfile id UsersService.init = (Throw AccountNotFound, UsersService.init) /\
  UsersController.findAll UsersService.init = (Return (VArr []), UsersService.init) /\
  UsersController.findOne id UsersService.init = (Return VUndefined, UsersService.init) /\
  AuthService.register rdto salt tUpdated tCreated UsersService.init =
    (Return (VObj [ ("message", VStr "Usuario registrado exitosamente");
                    ("user", VObj (public (registered_account 1 rdto salt tUpdated tCreated))) ]),
     {| UsersService.users := [registered_account 1 rdto salt tUpdated tCreated];
        UsersService.idCounter := 2 |}).
Proof. repeat split. Qed.

(** ** [create] and the lookups *)

(** X17. [create] followed by a lookup. After [create] stores a record:
    looking up any other email gives what it gave before; looking up the
    record's email gives the new record when that email was not stored,
    and still the earlier record when it was (the first match wins, the
    new record is shadowed); looking up the id just assigned gives the
    new record when no stored account had that id. *)
Theorem create_then_lookup (now : Date) (d : User.Data) (st : UsersService.t) :
  let created := fst (UsersServiceOps.create now d st) in
  let st1 := snd (UsersServiceOps.create now d st) in
  let newUser :=
    {| User.id := UsersService.idCounter st;
       User.username := User.d_username d;
       User.email := User.d_email d;
       User.password := User.d_password d;
       User.isActive := User.d_isActive d;
       User.updatedAt := User.d_updatedAt d;
       User.createdAt := now |} in
  created = Return newUser /\
  (forall e, e <> User.d_email d ->
     fst (UsersServiceOps.findByEmail e st1) = fst (UsersServiceOps.findByEmail e st)) /\
  (~ In (User.d_email d) (map User.email (UsersService.users st)) ->
     fst (UsersServiceOps.findByEmail (User.d_email d) st1) = Return (Some newUser)) /\
  (In (User.d_email d) (map User.email (UsersService.users st)) ->
     exists earlier,
       In earlier (UsersService.users st) /\
       fst (UsersServiceOps.findByEmail (User.d_email d) st) = Return (Some earlier) /\
       fst (UsersServiceOps.findByEmail (User.d_email d) st1) = Return (Some earlier)) /\
  (~ In (UsersService.idCounter st) (map User.id (UsersService.users st)) ->
     fst (UsersServiceOps.findById (UsersService.idCounter st) st1) = Return (Some newUser)).
Proof.
  intros created st1 newUser.
  split; [reflexivity|].
  subst st1. unfold_services. cbn [fst snd UsersService.users].
  split; [|split; [|split]].
  - intros e D. rewrite find_snoc.
    destruct (find _ (UsersService.users st)); [reflexivity|].
    cbn [User.email]. destruct (String.eqb_spec (User.d_email d) e) as [E|E];
      [congruence | reflexivity].
  - intros NE. rewrite find_snoc. apply find_email_none in NE. rewrite NE.
    cbn [User.email]. now rewrite String.eqb_refl.
  - intros IE. rewrite find_snoc.
    destruct (find (fun user => String.eqb (User.email user) (User.d_email d))
                (UsersService.users st)) as [u|] eqn:F.
    + exists u. apply find_email_some in F. tauto.
    + apply find_email_none in F. contradiction.
  - intros NI. rewrite find_snoc. apply find_id_none in NI. rewrite NI.
    cbn [User.id]. now rewrite Z.eqb_refl.
Qed.

Lemma create_then_lookup_witness :
  let d := {| User.d_username := "otro"; User.d_email := "juan@test.com";
              User.d_password := "h"; User.d_isActive := true; User.d_updatedAt := 5000 |} in
  let st1 := snd (UsersServiceOps.create 5000 d Demo.one_user) in
  List.length (UsersService.users st1) = 2%nat /\
  fst (UsersServiceOps.findByEmail "maria@test.com" st1) = Return None /\
  exists earlier,
    User.username earlier = "juanperez" /\
    fst (UsersServiceOps.findByEmail "juan@test.com" st1) = Return (Some earlier).
Proof.
  intros d st1. subst st1.
  destruct (create_then_lookup 5000 d Demo.one_user) as [_ [A [_ [B _]]]].
  split; [reflexivity|]. split.
  - rewrite (A "maria@test.com"); [reflexivity | discriminate].
  - destruct B as [earlier [I [_ E]]]; [vm_compute; left; reflexivity|].
    exists earlier. split; [|exact E].
    vm_compute in I. destruct I as [<-|[]]. reflexivity.
Defined.

(** * Schedules of the event loop *)

Section LoopFacts.
Context `{Bcrypt} `{Hs256}.
Variable jwtService : JwtService.t.
Import UsersService.

Lemma register_checks_store (dto : RegisterDto) (st : t) :
  snd (Overlap.register_checks dto st) = st.
Proof.
  unfold Overlap.register_checks. unfold_services.
  destruct (find _ (users st)); [reflexivity|].
  destruct (find _ (map _ (users st))); reflexivity.
Qed.

(** The second half of [register] checks nothing: it always returns,
    reporting the id it stored the account under. *)
Lemma register_resume_effect (dto : RegisterDto) (salt : Salt) (tU tC : Date) (st : t) :
  Overlap.register_resume dto salt tU tC st =
    (Return (VObj [ ("message", VStr "Usuario registrado exitosamente");
                    ("user", VObj (public (registered_account (idCounter st) dto salt tU tC))) ]),
     {| users := users st ++ [registered_account (idCounter st) dto salt tU tC];
        idCounter := idCounter st + 1 |}).
Proof. reflexivity. Qed.

(** A turn either is a registration that returns, reports the current
    counter as the new id and appends one account under that id, or it
    hands out no id and leaves the store as it was. *)
Lemma turn_effect (step : EventLoop.Turn) (l : EventLoop.t) :
  let r := EventLoop.turn jwtService step l in
  (EventLoop.returned (step, fst r) = true /\
   EventLoop.created (step, fst r) = Some (idCounter (EventLoop.store l)) /\
   exists u,
     User.id u = idCounter (EventLoop.store l) /\
     EventLoop.store (snd r) =
       {| users := users (EventLoop.store l) ++ [u];
          idCounter := idCounter (EventLoop.store l) + 1 |}) \/
  (EventLoop.returned (step, fst r) = false /\
   EventLoop.created (step, fst r) = None /\
   EventLoop.store (snd r) = EventLoop.store l).
Proof.
  destruct step as [req | dto | i salt tU tC]; cbn [EventLoop.turn].
  - destruct req as [dto salt tU tC | dto now | userId | | id];
      cbn [App.handle fst snd EventLoop.store].
    + destruct (register_cases dto salt tU tC (EventLoop.store l))
        as [[_ E] | [[_ [_ E]] | [NE [NU _]]]].
      * right. rewrite E. repeat split.
      * right. rewrite E. repeat split.
      * left. rewrite (register_fresh _ dto salt tU tC NE NU).
        split; [reflexivity|]. split; [reflexivity|].
        eexists. split; [|reflexivity]. reflexivity.
    + right. rewrite login_store. repeat split.
    + right. rewrite getProfile_store. repeat split.
    + right. repeat split.
    + right. repeat split.
  - right. cbn zeta.
    pose proof (register_checks_store dto (EventLoop.store l)) as S.
    destruct (Overlap.register_checks dto (EventLoop.store l)) as [[a|e] st'];
      cbn [fst snd] in S |- *; subst st'; repeat split.
  - destruct (nth_error (EventLoop.suspended l) i) as [dto|].
    + left. cbn zeta. rewrite register_resume_effect. cbn [fst snd EventLoop.store].
      split; [reflexivity|]. split; [reflexivity|].
      eexists. split; [|reflexivity]. reflexivity.
    + right. repeat split.
Qed.

Lemma play_cons (step : EventLoop.Turn) (rest : list EventLoop.Turn) (l : EventLoop.t) :
  EventLoop.play jwtService (step :: rest) l =
    ((step, fst (EventLoop.turn jwtService step l))
       :: fst (EventLoop.play jwtService rest (snd (EventLoop.turn jwtService step l))),
     snd (EventLoop.play jwtService rest (snd (EventLoop.turn jwtService step l)))).
Proof. reflexivity. Qed.

Lemma play_app (a b : list EventLoop.Turn) :
  forall l,
    EventLoop.play jwtService (a ++ b) l =
      (fst (EventLoop.play jwtService a l)
         ++ fst (EventLoop.play jwtService b (snd (EventLoop.play jwtService a l))),
       snd (EventLoop.play jwtService b (snd (EventLoop.play jwtService a l))))%list.
Proof.
  induction a as [|step a IH]; intros l.
  - cbn. now destruct (EventLoop.play jwtService b l).
  - cbn [app]. rewrite !play_cons, IH. reflexivity.
Qed.

(** What a schedule does to ids, from any loop: the ids handed out are
    the consecutive integers from the counter it started with; they are
    the ids of the accounts it appended, in order; there is one per
    registration that returned; the counter advanced by their number. *)
Lemma play_ids (turns : list EventLoop.Turn) :
  forall l,
    let ids := EventLoop.assigned_ids jwtService turns l in
    let final := EventLoop.store (snd (EventLoop.play jwtService turns l)) in
    ids = map (fun k => idCounter (EventLoop.store l) + Z.of_nat k) (seq 0 (List.length ids)) /\
    map User.id (users final) = (map User.id (users (EventLoop.store l)) ++ ids)%list /\
    List.length ids = EventLoop.registrations_returned jwtService turns l /\
    idCounter final = idCounter (EventLoop.store l) + Z.of_nat (List.length ids).
Proof.
  unfold EventLoop.assigned_ids, EventLoop.registrations_returned.
  induction turns as [|step rest IH]; intros l.
  - cbn. rewrite app_nil_r. repeat split. lia.
  - rewrite play_cons. cbn [fst snd flat_map filter].
    specialize (IH (snd (EventLoop.turn jwtService step l))).
    cbv zeta in IH. destruct IH as [A [B [C D]]].
    destruct (turn_effect step l) as [[R [Cr [u [U E]]]] | [R [Cr E]]];
      cbv zeta in R, Cr, E; rewrite R, Cr; rewrite E in A, B, D.
    + cbn [users idCounter] in A, B, D.
      cbn [app List.length seq map]. repeat split.
      * f_equal; [lia|]. rewrite A at 1.
        rewrite <- seq_shift, map_map. apply map_ext. intros k. lia.
      * rewrite B, map_app, <- app_assoc. cbn [map app]. now rewrite U.
      * now rewrite C.
      * rewrite D. lia.
    + cbn [app]. repeat split; assumption.
Qed.

(** Requests served one after the other are the schedules made of
    [Serve] turns only. *)
Lemma play_serve_is_run (reqs : list Request) :
  forall l,
    EventLoop.store (snd (EventLoop.play jwtService (map EventLoop.Serve reqs) l))
      = snd (App.run jwtService reqs (EventLoop.store l)) /\
    map snd (fst (EventLoop.play jwtService (map EventLoop.Serve reqs) l))
      = map Some (fst (App.run jwtService reqs (EventLoop.store l))).
Proof.
  induction reqs as [|req rest IH]; intros l.
  - split; reflexivity.
  - cbn [map]. rewrite play_cons, run_cons, run_outcomes_cons. cbn [fst snd map].
    destruct (IH (snd (EventLoop.turn jwtService (EventLoop.Serve req) l))) as [A B].
    rewrite A, B. cbn [EventLoop.turn fst snd EventLoop.store].
    split; reflexivity.
Qed.

End LoopFacts.

Lemma assigned_ids_app `{Bcrypt} `{Hs256}
    (jwtService : JwtService.t) (a b : list EventLoop.Turn) (l : EventLoop.t) :
  EventLoop.assigned_ids jwtService (a ++ b) l =
    (EventLoop.assigned_ids jwtService a l
       ++ EventLoop.assigned_ids jwtService b (snd (EventLoop.play jwtService a l)))%list.
Proof.
  unfold EventLoop.assigned_ids. rewrite play_app. cbn [fst].
  apply flat_map_app.
Qed.

(** ** Identity uniqueness under overlapping registrations *)

(** C3. Identity uniqueness is not kept in every reachable state. Two
    registrations with the same email reach the service; both calls run
    their duplicate checks on the empty store and suspend at
    [await bcrypt.hash]; both then resume. Both return success, and the
    store holds two accounts with the same email. *)
Theorem overlapping_registrations_share_email :
  let second := {| r_username := "juanito"; r_email := "juan@test.com";
                   r_password := "otraClave9" |} in
  let turns := [ EventLoop.RegisterCall Demo.juan;
                 EventLoop.RegisterCall second;
                 EventLoop.RegisterResume 0 "salt1" 1000 1000;
                 EventLoop.RegisterResume 0 "salt2" 1001 1001 ] in
  let trace := fst (Demo.play turns EventLoop.start) in
  let final := snd (Demo.play turns EventLoop.start) in
  map (fun e => option_map is_return (snd e)) trace = [None; None; Some true; Some true] /\
  EventLoop.suspended final = [] /\
  map User.id (UsersService.users (EventLoop.store final)) = [1; 2] /\
  map User.username (UsersService.users (EventLoop.store final)) = ["juanperez"; "juanito"] /\
  map User.email (UsersService.users (EventLoop.store final))
    = ["juan@test.com"; "juan@test.com"] /\
  ~ NoDup (map User.email (UsersService.users (EventLoop.store final))).
Proof.
  cbv zeta. repeat (split; [reflexivity|]).
  intros ND. inversion ND as [|x l NI _]; subst.
  apply NI. left. reflexivity.
Qed.

(** ** Id assignment along any schedule *)

(** C7. Ids are handed out in strictly increasing order and never
    reused. Along any schedule of turns from the empty store, overlapping
    registrations included: the ids reported to the registrations that
    returned, in order of creation, are strictly increasing, pairwise
    distinct and exactly 1, 2, ..., n, so the first account created
    receives id 1; they are the ids of the stored accounts, in array
    order; there is exactly one per registration that returned; the
    counter stands at n + 1; and the next registration that gets to
    create an account (served whole with a new email and username, or
    resumed from its [await]) receives n + 1. *)
Theorem ids_strictly_increasing `{Bcrypt} `{Hs256}
    (jwtService : JwtService.t) (turns : list EventLoop.Turn) :
  let ids := EventLoop.assigned_ids jwtService turns EventLoop.start in
  let final := snd (EventLoop.play jwtService turns EventLoop.start) in
  let accounts := UsersService.users (EventLoop.store final) in
  StronglySorted Z.lt ids /\
  NoDup ids /\
  ids = map Z.of_nat (seq 1 (List.length ids)) /\
  map User.id accounts = ids /\
  List.length ids = EventLoop.registrations_returned jwtService turns EventLoop.start /\
  UsersService.idCounter (EventLoop.store final) = Z.of_nat (List.length ids) + 1 /\
  (forall dto salt tUpdated tCreated,
      ~ In (r_email dto) (map User.email accounts) ->
      ~ In (r_username dto) (map User.username accounts) ->
      EventLoop.assigned_ids jwtService
          (turns ++ [EventLoop.Serve (PostRegister dto salt tUpdated tCreated)])
          EventLoop.start
        = (ids ++ [Z.of_nat (List.length ids) + 1])%list) /\
  (forall i dto salt tUpdated tCreated,
      nth_error (EventLoop.suspended final) i = Some dto ->
      EventLoop.assigned_ids jwtService
          (turns ++ [EventLoop.RegisterResume i salt tUpdated tCreated])
          EventLoop.start
        = (ids ++ [Z.of_nat (List.length ids) + 1])%list).
Proof.
  intros ids final accounts.
  destruct (play_ids jwtService turns EventLoop.start) as [A [B [C D]]].
  cbn [EventLoop.start EventLoop.store UsersService.init UsersService.users
         UsersService.idCounter map app] in A, B, D.
  fold ids in A, B, C, D. fold final in B, D. fold accounts in B.
  assert (S : StronglySorted Z.lt ids) by (rewrite A; apply consecutive_sorted).
  split; [exact S|]. split.
  { clear -S. induction S as [|x l S IH F]; constructor; [|exact IH].
    intros I. rewrite Forall_forall in F. specialize (F x I). lia. }
  split.
  { rewrite A at 1. rewrite <- seq_shift, map_map. apply map_ext. intros k. lia. }
  split; [exact B|]. split; [exact C|]. split; [lia|].
  split.
  - intros dto salt tU tC NE NU.
    rewrite assigned_ids_app. fold ids. f_equal.
    unfold EventLoop.assigned_ids.
    cbn [EventLoop.play EventLoop.turn App.handle fst snd flat_map].
    fold final.
    rewrite (register_fresh (EventLoop.store final) dto salt tU tC NE NU).
    cbn. rewrite D. f_equal. lia.
  - intros i dto salt tU tC N.
    rewrite assigned_ids_app. fold ids. f_equal.
    unfold EventLoop.assigned_ids.
    cbn [EventLoop.play EventLoop.turn fst snd flat_map].
    fold final. rewrite N. cbn. rewrite D. f_equal. lia.
Qed.

Lemma ids_strictly_increasing_witness :
  let turns := [ EventLoop.Serve (PostRegister Demo.juan "salt1" 1000 1000);
                 EventLoop.RegisterCall Demo.maria;
                 EventLoop.Serve (PostRegister Demo.juan_again "salt2" 2000 2000);
                 EventLoop.Serve GetUsers ] in
  let pedro := {| r_username := "pedro"; r_email := "pedro@test.com";
                  r_password := "miPassword123" |} in
  @EventLoop.assigned_ids Demo.bcrypt Demo.mac Demo.jwtService turns EventLoop.start = [1] /\
  @EventLoop.assigned_ids Demo.bcrypt Demo.mac Demo.jwtService
      (turns ++ [EventLoop.Serve (PostRegister pedro "salt4" 4000 4000)]) EventLoop.start
    = [1; 2] /\
  @EventLoop.assigned_ids Demo.bcrypt Demo.mac Demo.jwtService
      (turns ++ [EventLoop.RegisterResume 0 "salt3" 3000 3000]) EventLoop.start
    = [1; 2].
Proof.
  intros turns pedro.
  destruct (@ids_strictly_increasing Demo.bcrypt Demo.mac Demo.jwtService turns)
    as [_ [_ [_ [_ [_ [_ [A B]]]]]]].
  split; [reflexivity|]. split.
  - rewrite (A pedro "salt4" 4000 4000).
    + reflexivity.
    + vm_compute. intros [E|[]]. discriminate E.
    + vm_compute. intros [E|[]]. discriminate E.
  - rewrite (B 0%nat Demo.maria "salt3" 3000 3000); reflexivity.
Defined.

(** ** A registration served whole *)

Lemma nth_error_snoc {A} (l : list A) (x : A) :
  nth_error (l ++ [x]) (List.length l) = Some x.
Proof. induction l as [|y l IH]; [reflexivity | exact IH]. Qed.

Lemma remove_nth_snoc {A} (l : list A) (x : A) :
  EventLoop.remove_nth (List.length l) (l ++ [x]) = l.
Proof.
  induction l as [|y l IH]; [reflexivity|].
  cbn [List.length app EventLoop.remove_nth]. now rewrite IH.
Qed.

Lemma nth_error_length {A} (l : list A) : nth_error l (List.length l) = None.
Proof. apply nth_error_None. lia. Qed.

(** A registration served in one [Serve] turn is the call whose
    resumption comes in the very next turn: both leave the same loop and
    send the same response. *)
Lemma serve_register_two_turns `{Bcrypt} `{Hs256}
    (jwtService : JwtService.t) (l : EventLoop.t)
    (dto : RegisterDto) (salt : Salt) (tU tC : Date) :
  let whole := EventLoop.play jwtService
                 [EventLoop.Serve (PostRegister dto salt tU tC)] l in
  let split := EventLoop.play jwtService
                 [ EventLoop.RegisterCall dto;
                   EventLoop.RegisterResume (List.length (EventLoop.suspended l)) salt tU tC ] l in
  snd split = snd whole /\
  flat_map (fun e => match snd e with Some out => [out] | None => [] end) (fst split)
    = flat_map (fun e => match snd e with Some out => [out] | None => [] end) (fst whole).
Proof.
  cbv zeta. cbn [EventLoop.play EventLoop.turn App.handle fst snd flat_map].
  rewrite (register_checks_then_resume dto salt tU tC (EventLoop.store l)).
  unfold bind.
  pose proof (register_checks_store dto (EventLoop.store l)) as S.
  destruct (Overlap.register_checks dto (EventLoop.store l)) as [[[]|e] st'];
    cbn [fst snd] in S |- *; subst st'.
  - cbn [EventLoop.suspended EventLoop.store].
    rewrite nth_error_snoc, remove_nth_snoc. split; reflexivity.
  - cbn [EventLoop.suspended EventLoop.store].
    rewrite nth_error_length. destruct l. split; reflexivity.
Qed.
